(** * OpsBot: the incident control loop of [src/opsbot.py]

    A shallow embedding of the agent's monitoring loop: sampling
    ([get_cpu_usage], [monitor_cpu_once]), incident handling
    ([analyze_logs], [remediate], [notify], [log_incident],
    [handle_cpu_spike]), status publication ([update_ui_data]), the
    scheduler ([continuous_monitoring]) and the [__main__] block.

    Conventions of the model.
    - Python floats are rationals ([Q]) extended with the three special
      values ([pyfloat]); arithmetic on finite floats is the exact
      rational arithmetic (rounding is monotone and every bound used
      below is a representable number, so the comparisons are the
      source's).
    - Everything the process learns from outside during one monitoring
      cycle (Prometheus replies, clock, random draws, log file, OpenAI,
      docker, signal arrival) is one [world] record; a run of the loop
      consumes a list of them.
    - [print] is a no-op; SIGINT and SIGTERM both run [signal_handler],
      so [KeyboardInterrupt] is never raised and the clause of line 382
      is left out.
    - Calls on collaborators are recorded in an event trace with their
      arguments; what happens behind them (HTTP, SQL, file write) is the
      best-effort part their own [except] clauses cover. *)

From Stdlib Require Import QArith Qround Qminmax ZArith String Ascii List Bool Lia Lqa.
From stdpp Require Import gmap strings.
Import ListNotations.

Open Scope Z_scope.
Open Scope string_scope.
Open Scope list_scope.

(** ** Strings as Python uses them here *)

Module PyStr.

(** [str.isspace] on the ASCII range: TAB..CR, FS..US and the blank. *)
Definition is_space (c : ascii) : bool :=
  let n := nat_of_ascii c in
  ((9 <=? n)%nat && (n <=? 13)%nat)
  || ((28 <=? n)%nat && (n <=? 32)%nat).

Fixpoint lstrip (s : string) : string :=
  match s with
  | String c s' => if is_space c then lstrip s' else s
  | EmptyString => EmptyString
  end.

Definition reverse (s : string) : string :=
  string_of_list_ascii (rev (list_ascii_of_string s)).

Definition rstrip (s : string) : string := reverse (lstrip (reverse s)).

(** [s.strip()] *)
Definition strip (s : string) : string := rstrip (lstrip s).

(** [s.lower()] on the ASCII letters. *)
Definition lower_char (c : ascii) : ascii :=
  let n := nat_of_ascii c in
  if ((65 <=? n)%nat && (n <=? 90)%nat) then ascii_of_nat (n + 32) else c.

Fixpoint lower (s : string) : string :=
  match s with
  | String c s' => String (lower_char c) (lower s')
  | EmptyString => EmptyString
  end.

(** [needle in hay] *)
Fixpoint contains (needle hay : string) : bool :=
  String.prefix needle hay
  || match hay with
     | String _ hay' => contains needle hay'
     | EmptyString => false
     end.

(** [s[-n:]] *)
Definition last_chars (n : nat) (s : string) : string :=
  String.substring (String.length s - n) n s.

(** ["\n".join(lines)] *)
Fixpoint join_lines (lines : list string) : string :=
  match lines with
  | [] => ""
  | [l] => l
  | l :: rest => l +:+ String "010"%char (join_lines rest)
  end.

Definition digit_val (c : ascii) : option Z :=
  let n := nat_of_ascii c in
  if ((48 <=? n)%nat && (n <=? 57)%nat) then Some (Z.of_nat (n - 48)) else None.

(** The digit part of an [int()] literal: decimal digits, single
    underscores allowed between two digits. *)
Fixpoint int_digits (s : string) (acc : Z) (after_digit : bool) : option Z :=
  match s with
  | EmptyString => if after_digit then Some acc else None
  | String c s' =>
      match digit_val c with
      | Some d => int_digits s' (10 * acc + d) true
      | None =>
          if (Ascii.eqb c "_"%char && after_digit)%bool
          then int_digits s' acc false
          else None
      end
  end.

(** [int(s)] for a string argument, base 10; [None] is [ValueError]. *)
Definition int (s : string) : option Z :=
  match strip s with
  | String "-"%char r => Z.opp <$> int_digits r 0 false
  | String "+"%char r => int_digits r 0 false
  | t => int_digits t 0 false
  end.

(** Truth value of an optional string ([if not API_KEY]). *)
Definition truthy (o : option string) : bool :=
  match o with
  | Some (String _ _) => true
  | _ => false
  end.

End PyStr.

(** ** Configuration (lines 13-21 and the literal of line 363) *)

(** [os.getenv(key, default)] *)
Definition getenv (env : gmap string string) (key dflt : string) : string :=
  default dflt (env !! key).

Definition MONITORING_INTERVAL : nat := 30.

(** The double nearest to 0.1, as [SPIKE_SIMULATION_CHANCE = 0.1] stores it. *)
Definition SPIKE_SIMULATION_CHANCE : Q := 3602879701896397 # 36028797018963968.

(** The cooldown of [continuous_monitoring]: the literal [120] in
    [current_time - last_spike_time > 120]. *)
Definition cooldown_seconds : Q := 120.

(** Module-level globals of the agent after start-up. *)
Record globals := {
  API_KEY : option string;
  SLACK_WEBHOOK_URL : option string;
  THRESHOLD : Z;
  CONTAINER_NAME : string;
  prom : bool   (** [prom] is an object (true) or [None] (false) *)
}.

(** Lines 14-17 and 49-57; [None] when [int] raises [ValueError]. *)
Definition startup (env : gmap string string) (prom_up : bool) : option globals :=
  th ← PyStr.int (getenv env "CPU_THRESHOLD" "80");
  Some {| API_KEY := env !! "OPENAI_API_KEY";
          SLACK_WEBHOOK_URL := env !! "SLACK_WEBHOOK_URL";
          THRESHOLD := th;
          CONTAINER_NAME := getenv env "CONTAINER_NAME" "test-container";
          prom := prom_up |}.

(** The four settings the specification names, as the agent ends up
    using them. *)
Record configuration := {
  thresholdPercent : Z;
  subjectName : string;
  samplingIntervalSeconds : nat;
  cooldownSeconds : Q
}.

Definition configuration_of (g : globals) : configuration :=
  {| thresholdPercent := THRESHOLD g;
     subjectName := CONTAINER_NAME g;
     samplingIntervalSeconds := MONITORING_INTERVAL;
     cooldownSeconds := cooldown_seconds |}.

Definition load_configuration (env : gmap string string) : option configuration :=
  configuration_of <$> startup env false.

(** The configuration as section 6 of the specification words it: four
    optional keys, each with its default.  Used only to compare with
    [load_configuration]. *)
Definition configuration_as_specified (env : gmap string string) : option configuration :=
  th ← PyStr.int (getenv env "THRESHOLD_PERCENT" "80");
  iv ← PyStr.int (getenv env "SAMPLING_INTERVAL_SECONDS" "30");
  cd ← PyStr.int (getenv env "COOLDOWN_SECONDS" "120");
  Some {| thresholdPercent := th;
          subjectName := getenv env "SUBJECT_NAME" "test-container";
          samplingIntervalSeconds := Z.to_nat iv;
          cooldownSeconds := inject_Z cd |}.

(** ** Values and events *)

(** A Python float: a finite value, or one of the three special ones
    that [float()] can produce from a Prometheus sample. *)
Inductive pyfloat :=
| Finite (q : Q)
| PosInf
| NegInf
| NaN.

(** JSON values of the status file. *)
Inductive jvalue :=
| JFloat (q : Q)
| JInt (z : Z)
| JStr (s : string)
| JBool (b : bool).

(** The places of one monitoring cycle where the global [running] is
    read: the [while] test, each [update_ui_data] call site and each
    round of the sleep loop.  A shutdown signal is observed at the first
    read that follows it. *)
Inductive ckpt :=
| AtLoop
| AtSample
| AtAnalyzing
| AtRemediating
| AtRemediated
| AtIntervention
| AtCooldown
| AtAgentError
| AtSleep (i : nat).

#[global] Instance ckpt_eq_dec : EqDecision ckpt.
Proof. solve_decision. Defined.

(** Calls on the collaborators, in program order. *)
Inductive event :=
| Publish (d : gmap string jvalue)        (** [update_ui_data] dumped [d] *)
| HandleSpike (current_time cpu_usage : Q)
                                          (** [handle_cpu_spike(cpu_usage)] entered,
                                              [current_time] being the clock of line 362 *)
| CallDiagnose                            (** [analyze_logs()] entered *)
| CallRemediate                           (** [remediate()] entered *)
| Notify (cause action : string)          (** [notify(cause, action)] *)
| RecordIncident (cause action : string) (cpu_usage : Q)
                                          (** [log_incident(cause, action, cpu_usage)] *)
| SetLastSpike (t : Q)                    (** [last_spike_time = current_time] *)
| Sleep (seconds : nat).                  (** [time.sleep(seconds)] *)

(** ** The outside world during one cycle *)

(** Reply of [prom.custom_query]: an exception, or the rows, each with
    the outcome of [float(row['value'][1])] ([None]: it raised). *)
Inductive prom_reply :=
| PromRaise
| PromRows (rows : list (option pyfloat)).

(** The log file as [analyze_logs] finds it. *)
Inductive log_file :=
| LogError (e : string)    (** a file operation raised [e] *)
| LogMissing               (** no file yet: the sample lines are written *)
| LogText (s : string).

Record world := {
  w_signal : option ckpt;          (** the read of [running] a signal precedes *)
  w_ctime : ckpt -> string;        (** [time.ctime()] in [update_ui_data] *)
  w_prom : string -> prom_reply;   (** [prom.custom_query(query)] *)
  w_time : Q;                      (** [time.time()] in [get_cpu_usage] *)
  w_sin : Q -> Q;                  (** [math.sin] *)
  w_random : nat -> Q;             (** the successive [random.random()] draws *)
  w_sample_fault : option string;  (** an exception escaping [get_cpu_usage],
                                       raised in its simulation block *)
  w_now : Q;                       (** [time.time()] in [continuous_monitoring] *)
  w_log_file : log_file;
  w_log_ctime : nat -> string;     (** [time.ctime()] of the sample log lines *)
  w_openai : string + string;      (** exception, or the completion text *)
  w_docker_ps : string + string;   (** exception, or stdout of [docker ps] *)
  w_docker_run : bool;             (** [docker run] exited with status 0 *)
  w_docker_restart : bool          (** [docker restart] exited with status 0 *)
}.

(** ** Process state and the effect monad *)

(** The global [running] and the two locals of [continuous_monitoring]. *)
Record store := {
  running : bool;
  cycle_count : nat;
  last_spike_time : Q
}.

Definition set_running (b : bool) (s : store) : store :=
  {| running := b; cycle_count := cycle_count s; last_spike_time := last_spike_time s |}.
Definition set_cycle_count (n : nat) (s : store) : store :=
  {| running := running s; cycle_count := n; last_spike_time := last_spike_time s |}.
Definition set_last_spike_time (t : Q) (s : store) : store :=
  {| running := running s; cycle_count := cycle_count s; last_spike_time := t |}.

(** A computation: from a store to an exception message or a result,
    the new store and the calls made. *)
Definition M (A : Type) : Type := store -> (string + A) * store * list event.

Definition ret {A} (a : A) : M A := fun s => (inr a, s, []).

Definition bind {A B} (m : M A) (f : A -> M B) : M B :=
  fun s =>
    match m s with
    | (inl e, s1, t1) => (inl e, s1, t1)
    | (inr a, s1, t1) =>
        match f a s1 with
        | (r, s2, t2) => (r, s2, t1 ++ t2)
        end
    end.

Definition raise {A} (e : string) : M A := fun s => (inl e, s, []).

(** [try: m  except Exception as e: h e] *)
Definition try_except {A} (m : M A) (h : string -> M A) : M A :=
  fun s =>
    match m s with
    | (inl e, s1, t1) =>
        match h e s1 with
        | (r, s2, t2) => (r, s2, t1 ++ t2)
        end
    | ok => ok
    end.

Definition emit (e : event) : M unit := fun s => (inr tt, s, [e]).
Definition get_store : M store := fun s => (inr s, s, []).
Definition put_store (f : store -> store) : M unit := fun s => (inr tt, f s, []).

Declare Scope opsbot_scope.
Delimit Scope opsbot_scope with ops.
Notation "x <- m ;; k" := (bind m (fun x => k))
  (at level 100, m at next level, k at level 200, right associativity) : opsbot_scope.
Notation "m ;; k" := (bind m (fun _ => k))
  (at level 100, k at level 200, right associativity) : opsbot_scope.
Open Scope opsbot_scope.

(** The signal handler ran just before the read at [p]. *)
Definition deliver (w : world) (p : ckpt) (s : store) : store :=
  if decide (w_signal w = Some p) then set_running false s else s.

(** Reading the global [running] at [p]. *)
Definition poll (w : world) (p : ckpt) : M bool :=
  fun s => let s' := deliver w p s in (inr (running s'), s', []).

(** ** Float helpers *)

Definition Qlt_bool (a b : Q) : bool := negb (Qle_bool b a).

(** [min(a, b)] and [max(a, b)] of two floats, with Python's choice of
    the first argument on ties. *)
Definition py_min (a b : Q) : Q := if Qlt_bool b a then b else a.
Definition py_max (a b : Q) : Q := if Qlt_bool a b then b else a.

(** [x % m] for a positive modulus. *)
Definition fmod (x m : Q) : Q := (x - m * inject_Z (Qfloor (x / m)))%Q.

(** [random.uniform(a, b)], that is [a + (b - a) * random()], on the
    [n]-th draw of the cycle. *)
Definition uniform (w : world) (n : nat) (a b : Q) : Q :=
  (a + (b - a) * w_random w n)%Q.

(** ** Sampling: [get_cpu_usage] and [monitor_cpu_once] *)

Definition dq : string := String "034"%char EmptyString.

Definition queries : list string :=
  [ "100 - (avg by (instance) (irate(node_cpu_seconds_total{mode=" +:+ dq +:+ "idle" +:+ dq +:+ "}[5m])) * 100)";
    "100 - (avg(irate(node_cpu_seconds_total{mode=" +:+ dq +:+ "idle" +:+ dq +:+ "}[5m])) * 100)";
    "avg(100 - (avg by (instance) (irate(node_cpu_seconds_total{mode=" +:+ dq +:+ "idle" +:+ dq +:+ "}[1m])) * 100))" ].

(** The sanity check [0 <= cpu_usage <= 100]. *)
Definition sane (f : pyfloat) : option Q :=
  match f with
  | Finite q => if Qle_bool 0 q && Qle_bool q 100 then Some q else None
  | _ => None
  end.

(** The [for query in queries] loop: the first reply whose first row
    converts to a float that passes the sanity check. *)
Fixpoint query_loop (w : world) (qs : list string) : option Q :=
  match qs with
  | [] => None
  | q :: rest =>
      match w_prom w q with
      | PromRows (Some f :: _) =>
          match sane f with
          | Some v => Some v
          | None => query_loop w rest
          end
      | _ => query_loop w rest
      end
  end.

(** Lines 81-87: the estimate made when raw CPU data is there. *)
Definition raw_estimate (w : world) : Q :=
  let base_usage := (15 + fmod (w_time w) 30)%Q in
  py_min (base_usage + uniform w 0 (-5) 15)%Q 95.

(** Lines 92-107: simulation mode. *)
Definition simulation (w : world) : Q :=
  let time_factor := fmod (w_time w) 300 in
  let base_usage := (20 + 15 * w_sin w (time_factor / 50))%Q in
  let noise := uniform w 0 (-8) 12 in
  if Qlt_bool (w_random w 1) SPIKE_SIMULATION_CHANCE
  then uniform w 2 85 95
  else py_max 5 (py_min 95 (base_usage + noise)%Q).

(** The [if prom:] block; [None] when control falls through to the
    simulation (nothing usable, or an exception caught at line 89). *)
Definition prometheus_value (w : world) : option Q :=
  match query_loop w queries with
  | Some v => Some v
  | None =>
      match w_prom w "node_cpu_seconds_total" with
      | PromRows (_ :: _) => Some (raw_estimate w)
      | _ => None
      end
  end.

(** The synthetic value used when Prometheus gives none. *)
Definition synthetic (w : world) : string + Q :=
  match w_sample_fault w with
  | Some e => inl e
  | None => inr (simulation w)
  end.

Definition get_cpu_usage (g : globals) (w : world) : string + Q :=
  match (if prom g then prometheus_value w else None) with
  | Some v => inr v
  | None => synthetic w
  end.

(** ** Status publication: [update_ui_data] *)

(** [data.update({...})] of lines 301-306. *)
Definition stamped (g : globals) (stamp : string) (run : bool)
    (data : gmap string jvalue) : gmap string jvalue :=
  <["monitoring_active" := JBool run]>
    (<["threshold" := JInt (THRESHOLD g)]>
       (<["container_name" := JStr (CONTAINER_NAME g)]>
          (<["last_updated" := JStr stamp]> data))).

Definition publish (g : globals) (stamp : string) (data : gmap string jvalue) : M unit :=
  s <- get_store;;
  emit (Publish (stamped g stamp (running s) data)).

Definition update_ui_data (g : globals) (w : world) (p : ckpt)
    (data : gmap string jvalue) : M unit :=
  poll w p;;
  publish g (w_ctime w p) data.

(** The dict literal [{"cpu_usage": v, "status": s}]. *)
Definition reading (v : jvalue) (s : string) : gmap string jvalue :=
  <["status" := JStr s]> (<["cpu_usage" := v]> ∅).

Definition lift {A} (r : string + A) : M A :=
  match r with
  | inl e => raise e
  | inr a => ret a
  end.

Definition monitor_cpu_once (g : globals) (w : world) : M (bool * Q) :=
  try_except
    (cpu_usage <- lift (get_cpu_usage g w);;
     if Qlt_bool (inject_Z (THRESHOLD g)) cpu_usage
     then update_ui_data g w AtSample (reading (JFloat cpu_usage) "Spike Detected");;
          ret (true, cpu_usage)
     else update_ui_data g w AtSample (reading (JFloat cpu_usage) "Normal");;
          ret (false, cpu_usage))
    (fun e =>
       update_ui_data g w AtSample (reading (JInt 0) "Monitoring Error");;
       ret (false, 0%Q)).

(** ** Diagnosis: [analyze_logs] *)

Definition sample_logs (g : globals) (w : world) : list string :=
  [ w_log_ctime w 0 +:+ ": System boot completed";
    w_log_ctime w 1 +:+ ": Container " +:+ CONTAINER_NAME g +:+ " started";
    w_log_ctime w 2 +:+ ": High CPU usage detected in process";
    w_log_ctime w 3 +:+ ": Memory pressure increasing";
    w_log_ctime w 4 +:+ ": Multiple worker processes spawned";
    w_log_ctime w 5 +:+ ": Disk I/O operations intensive";
    w_log_ctime w 6 +:+ ": Network connections multiplying" ].

(** Lines 171-179: the keyword classifier used without an API key. *)
Definition classify (logs : string) : string :=
  if PyStr.contains "worker processes" (PyStr.lower logs)
  then "Multiple worker processes causing CPU overload"
  else if PyStr.contains "memory pressure" (PyStr.lower logs)
  then "Memory pressure leading to excessive swapping"
  else if PyStr.contains "network connections" (PyStr.lower logs)
  then "High network activity overwhelming system"
  else "Process inefficiency in container workload".

(** The body of the [try] of [analyze_logs]: the analysis, or the
    exception it raises. *)
Definition analysis (g : globals) (w : world) : string + string :=
  match w_log_file w with
  | LogError e => inl e
  | found =>
      let logs := match found with
                  | LogText s => s
                  | _ => PyStr.join_lines (sample_logs g w)
                  end in
      let logs := if (3000 <? String.length logs)%nat
                  then PyStr.last_chars 3000 logs else logs in
      if PyStr.truthy (API_KEY g)
      then match w_openai w with
           | inl e => inl e
           | inr content => inr (PyStr.strip content)
           end
      else inr (classify logs)
  end.

Definition analyze_logs (g : globals) (w : world) : M string :=
  emit CallDiagnose;;
  match analysis g w with
  | inr text => ret text
  | inl e => ret ("Log analysis failed: " +:+ e)
  end.

(** ** Remediation, notification, persistence *)

(** Whether the docker commands of [remediate] all go through. *)
Definition restart_succeeds (g : globals) (w : world) : bool :=
  match w_docker_ps w with
  | inl _ => false
  | inr stdout =>
      (PyStr.contains (CONTAINER_NAME g) stdout || w_docker_run w)
      && w_docker_restart w
  end.

Definition remediate (g : globals) (w : world) : M bool :=
  emit CallRemediate;;
  if restart_succeeds g w
  then emit (Sleep 5);;
       update_ui_data g w AtRemediated
         (<["cpu_usage" := JFloat 25]> (<["status" := JStr "Remediation Complete"]> ∅));;
       ret true
  else ret false.

Definition notify (cause action : string) : M unit := emit (Notify cause action).

Definition log_incident (cause action : string) (cpu_usage : Q) : M unit :=
  emit (RecordIncident cause action cpu_usage).

(** ** The controller: [handle_cpu_spike] *)

Definition success_action (g : globals) : string :=
  "Container '" +:+ CONTAINER_NAME g +:+ "' restarted successfully".

Definition failure_action : string :=
  "Automatic remediation failed - manual intervention required".

Definition handle_cpu_spike (g : globals) (w : world) (cpu_usage : Q) : M bool :=
  update_ui_data g w AtAnalyzing (reading (JFloat cpu_usage) "Analyzing...");;
  cause <- analyze_logs g w;;
  update_ui_data g w AtRemediating (reading (JFloat cpu_usage) "Remediating...");;
  ok <- remediate g w;;
  if ok
  then notify cause (success_action g);;
       log_incident cause (success_action g) cpu_usage;;
       ret true
  else notify cause failure_action;;
       log_incident cause failure_action cpu_usage;;
       update_ui_data g w AtIntervention
         (<["cpu_usage" := JFloat cpu_usage]> (<["status" := JStr "Intervention Needed"]> ∅));;
       ret false.

(** ** The scheduler: [continuous_monitoring] *)

(** Lines 377-380: [for i in range(n): if not running: break; time.sleep(1)],
    from round [i] on. *)
Fixpoint sleep_loop (w : world) (i n : nat) : M unit :=
  match n with
  | O => ret tt
  | S n' =>
      r <- poll w (AtSleep i);;
      if r then emit (Sleep 1);; sleep_loop w (S i) n' else ret tt
  end.

(** The body of the [try] of one loop iteration. *)
Definition cycle_body (g : globals) (w : world) : M unit :=
  put_store (fun s => set_cycle_count (S (cycle_count s)) s);;
  r <- monitor_cpu_once g w;;
  (if fst r
   then
     let current_time := w_now w in
     s <- get_store;;
     if Qlt_bool 120 (current_time - last_spike_time s)%Q
     then emit (HandleSpike current_time (snd r));;
          handle_cpu_spike g w (snd r);;
          put_store (set_last_spike_time current_time);;
          emit (SetLastSpike current_time)
     else update_ui_data g w AtCooldown (reading (JFloat (snd r)) "Cooldown")
   else ret tt);;
  sleep_loop w 0 MONITORING_INTERVAL.

(** One iteration with its [except Exception] clause. *)
Definition cycle (g : globals) (w : world) : M unit :=
  try_except (cycle_body g w)
    (fun e =>
       update_ui_data g w AtAgentError
         (<["error" := JStr e]> (<["status" := JStr "Agent Error"]> ∅));;
       emit (Sleep 10)).

(** [while running:] over the worlds of the successive cycles.  The
    result tells whether the loop was left; it is [false] when the
    worlds ran out with [running] still set. *)
Fixpoint monitoring_loop (g : globals) (ws : list world) : M bool :=
  match ws with
  | [] => s <- get_store;; ret (negb (running s))
  | w :: ws' =>
      r <- poll w AtLoop;;
      if r then cycle g w;; monitoring_loop g ws' else ret true
  end.

Definition continuous_monitoring (g : globals) (ws : list world) : M bool :=
  put_store (fun s => set_last_spike_time 0 (set_cycle_count 0 s));;
  monitoring_loop g ws.

(** ** The [__main__] block *)

Record boot := {
  b_signal : bool;              (** a signal arrives before the first status *)
  b_ctime_init : string;
  b_makedirs : option string;   (** an exception of [os.makedirs] *)
  b_ctime_fatal : string;
  b_late_signal : bool;         (** a signal arrives in the [except] clause *)
  b_ctime_stop : string
}.

Definition signal_if (b : bool) : M unit :=
  if b then put_store (set_running false) else ret tt.

(** The [try]/[except]/[finally] of lines 393-410.  The result tells
    whether the process has ended within the worlds given. *)
Definition main (g : globals) (b : boot) (ws : list world) : M bool :=
  ended <- try_except
             (signal_if (b_signal b);;
              publish g (b_ctime_init b) (<["status" := JStr "Initializing..."]> (<["cpu_usage" := JFloat 0]> ∅));;
              match b_makedirs b with Some e => raise e | None => ret tt end;;
              continuous_monitoring g ws)
             (fun e =>
                signal_if (b_late_signal b);;
                publish g (b_ctime_fatal b) (<["error" := JStr e]> (<["status" := JStr "Fatal Error"]> ∅));;
                ret true);;
  if ended
  then publish g (b_ctime_stop b) (<["monitoring_active" := JBool false]> (<["status" := JStr "Stopped"]> ∅));;
       ret true
  else ret false.

Definition initial_store : store :=
  {| running := true; cycle_count := 0; last_spike_time := 0 |}.

Definition exec_main (g : globals) (b : boot) (ws : list world) :
    (string + bool) * store * list event :=
  main g b ws initial_store.

(** The statuses published in a trace, oldest first. *)
Definition statuses (tr : list event) : list (gmap string jvalue) :=
  omap (fun e => match e with Publish d => Some d | _ => None end) tr.

(** The metric value of a status record, when it carries one. *)
Definition status_value (d : gmap string jvalue) : option Q :=
  match d !! "cpu_usage" with
  | Some (JFloat q) => Some q
  | Some (JInt z) => Some (inject_Z z)
  | _ => None
  end.

(** * Observations

    What the properties below are stated with: readings of a trace,
    classes of events and of status records, and a few concrete
    worlds. *)

(** The string [analyze_logs] returns. *)
Definition diagnosed_cause (g : globals) (w : world) : string :=
  match analysis g w with
  | inr text => text
  | inl e => "Log analysis failed: " +:+ e
  end.

(** The only change checkpoints make to the store: [running] cleared. *)
Definition after_signal (s s' : store) : Prop :=
  s' = s \/ s' = set_running false s.

(** What a cycle does before it goes to sleep: the store it reaches and
    the calls it makes. *)
Definition cycle_front (g : globals) (w : world) (s : store) : store * list event :=
  let s0 := set_cycle_count (S (cycle_count s)) s in
  let s1 := deliver w AtSample s0 in
  let pub p r v st := Publish (stamped g (w_ctime w p) r (reading v st)) in
  match get_cpu_usage g w with
  | inl e => (s1, [pub AtSample (running s1) (JInt 0) "Monitoring Error"])
  | inr cpu =>
      if Qlt_bool (inject_Z (THRESHOLD g)) cpu
      then
        if Qlt_bool 120 (w_now w - last_spike_time s1)%Q
        then
          match handle_cpu_spike g w cpu s1 with
          | (_, s2, t2) =>
              (set_last_spike_time (w_now w) s2,
               pub AtSample (running s1) (JFloat cpu) "Spike Detected"
                 :: HandleSpike (w_now w) cpu :: t2 ++ [SetLastSpike (w_now w)])
          end
        else
          let s2 := deliver w AtCooldown s1 in
          (s2, [ pub AtSample (running s1) (JFloat cpu) "Spike Detected";
                 pub AtCooldown (running s2) (JFloat cpu) "Cooldown" ])
      else (s1, [pub AtSample (running s1) (JFloat cpu) "Normal"])
  end.

(** Calls that belong to the handling of an incident. *)
Definition incident_call (e : event) : bool :=
  match e with
  | HandleSpike _ _ | CallDiagnose | CallRemediate
  | Notify _ _ | RecordIncident _ _ _ => true
  | _ => false
  end.

(** The four keys section 6 of the specification names. *)
Definition specified_keys : list string :=
  ["THRESHOLD_PERCENT"; "SUBJECT_NAME"; "SAMPLING_INTERVAL_SECONDS"; "COOLDOWN_SECONDS"].

Definition default_configuration : configuration :=
  {| thresholdPercent := 80; subjectName := "test-container";
     samplingIntervalSeconds := 30; cooldownSeconds := 120 |}.

(** The incident records and the notifications of a trace, oldest first. *)
Definition records (tr : list event) : list (string * string * Q) :=
  omap (fun e => match e with
                 | RecordIncident c a v => Some (c, a, v)
                 | _ => None
                 end) tr.

Definition notifications (tr : list event) : list (string * string) :=
  omap (fun e => match e with Notify c a => Some (c, a) | _ => None end) tr.

(** The events that follow the first incident record of a trace. *)
Fixpoint after_record (tr : list event) : option (list event) :=
  match tr with
  | [] => None
  | RecordIncident _ _ _ :: rest => Some rest
  | _ :: rest => after_record rest
  end.

(** The cycle takes the handling branch: a value above the threshold,
    read when the cooldown has run out. *)
Definition handles (g : globals) (w : world) (s : store) (cpu : Q) : Prop :=
  get_cpu_usage g w = inr cpu
  /\ (inject_Z (THRESHOLD g) < cpu)%Q
  /\ (cooldown_seconds < w_now w - last_spike_time s)%Q.

(** C1 read on a trace: every diagnosis is preceded by the assignment
    of [last_spike_time]. *)
Definition recorded_before_diagnosis (tr : list event) : Prop :=
  forall pre post,
    tr = pre ++ CallDiagnose :: post -> exists t, In (SetLastSpike t) pre.

(** The dict literals of lines 395, 406 and 409. *)
Definition init_data : gmap string jvalue :=
  <["status" := JStr "Initializing..."]> (<["cpu_usage" := JFloat 0]> ∅).
Definition fatal_data (e : string) : gmap string jvalue :=
  <["error" := JStr e]> (<["status" := JStr "Fatal Error"]> ∅).
Definition stop_data : gmap string jvalue :=
  <["monitoring_active" := JBool false]> (<["status" := JStr "Stopped"]> ∅).

(** The store when the loop is entered. *)
Definition entry_store (b : boot) : store :=
  if b_signal b then set_running false initial_store else initial_store.

(** The fields C9 asks of every status record. *)
Definition required_keys : list string :=
  ["cpu_usage"; "status"; "last_updated"; "container_name"; "threshold";
   "monitoring_active"].

Definition has_keys (ks : list string) (d : gmap string jvalue) : Prop :=
  Forall (fun k => is_Some (d !! k)) ks.

(** The statuses published without a metric value. *)
Definition valueless (d : gmap string jvalue) : Prop :=
  d !! "status" = Some (JStr "Agent Error")
  \/ d !! "status" = Some (JStr "Fatal Error")
  \/ d !! "status" = Some (JStr "Stopped").

(** The schema every published record does follow. *)
Definition well_formed (d : gmap string jvalue) : Prop :=
  has_keys ["status"; "last_updated"; "container_name"; "threshold";
            "monitoring_active"] d
  /\ (is_Some (d !! "cpu_usage") \/ valueless d).

Definition well_formed_event (e : event) : Prop :=
  match e with
  | Publish d => well_formed d
  | _ => True
  end.

(** A record whose status is one of the three above has no [cpu_usage]
    field at all. *)
Definition withholds_value (d : gmap string jvalue) : Prop :=
  valueless d -> d !! "cpu_usage" = None.

Definition withholds_value_event (e : event) : Prop :=
  match e with
  | Publish d => withholds_value d
  | _ => True
  end.

(** The statuses of the records that report a sample. *)
Definition sample_phase (st : string) : Prop :=
  st <> "Agent Error" /\ st <> "Fatal Error" /\ st <> "Stopped".

(** The contract of [random.random()]: a draw lies between 0 and 1. *)
Definition fair_random (w : world) : Prop :=
  forall n, (0 <= w_random w n <= 1)%Q.

(** What [get_cpu_usage] falls back on when no query gives a usable
    value: the estimate from raw data, or the simulation. *)
Definition fallback (w : world) : string + Q :=
  match w_prom w "node_cpu_seconds_total" with
  | PromRows (_ :: _) => inr (raw_estimate w)
  | _ => synthetic w
  end.

(** The value of a published status, if any, is a percentage. *)
Definition value_ok (e : event) : Prop :=
  match e with
  | Publish d => forall v, status_value d = Some v -> (0 <= v <= 100)%Q
  | _ => True
  end.

(** The times at which incident-handling sequences start, oldest first. *)
Definition trigger_times (tr : list event) : list Q :=
  omap (fun e => match e with HandleSpike t _ => Some t | _ => None end) tr.

(** Each start is more than a cooldown after the one before, the first
    one more than a cooldown after [last]. *)
Fixpoint spaced (last : Q) (ts : list Q) : Prop :=
  match ts with
  | [] => True
  | t :: ts' => (last + cooldown_seconds < t)%Q /\ spaced t ts'
  end.

(** ** Scenarios *)

Module Scenario.

Definition g0 : globals :=
  {| API_KEY := None; SLACK_WEBHOOK_URL := None; THRESHOLD := 80;
     CONTAINER_NAME := "test-container"; prom := false |}.

(** A quiet cycle: no Prometheus, simulated load of 22 %. *)
Definition calm : world :=
  {| w_signal := None;
     w_ctime := fun _ => "Tue Nov  3 10:00:00 2026";
     w_prom := fun _ => PromRaise;
     w_time := 1000;
     w_sin := fun _ => 0%Q;
     w_random := fun _ => (1 # 2)%Q;
     w_sample_fault := None;
     w_now := 1000;
     w_log_file := LogMissing;
     w_log_ctime := fun _ => "Tue Nov  3 10:00:00 2026";
     w_openai := inl "no backend";
     w_docker_ps := inr "test-container";
     w_docker_run := true;
     w_docker_restart := true |}.

(** The same cycle at time [t], with the simulated spike (85.1 %)
    and a restart that goes through or not. *)
Definition spike (t : Q) (restart_ok : bool) : world :=
  {| w_signal := None;
     w_ctime := w_ctime calm;
     w_prom := w_prom calm;
     w_time := t;
     w_sin := w_sin calm;
     w_random := fun _ => (1 # 100)%Q;
     w_sample_fault := None;
     w_now := t;
     w_log_file := LogMissing;
     w_log_ctime := w_log_ctime calm;
     w_openai := w_openai calm;
     w_docker_ps := w_docker_ps calm;
     w_docker_run := true;
     w_docker_restart := restart_ok |}.

(** The value [get_cpu_usage] returns in the [spike] cycles. *)
Definition spike_value : Q := Eval vm_compute in simulation (spike 1000 true).

(** A spike whose diagnosis raises: the log file cannot be read. *)
Definition undiagnosed : world :=
  {| w_signal := None;
     w_ctime := w_ctime calm;
     w_prom := w_prom calm;
     w_time := 1000;
     w_sin := w_sin calm;
     w_random := fun _ => (1 # 100)%Q;
     w_sample_fault := None;
     w_now := 1000;
     w_log_file := LogError "timed out";
     w_log_ctime := w_log_ctime calm;
     w_openai := w_openai calm;
     w_docker_ps := w_docker_ps calm;
     w_docker_run := true;
     w_docker_restart := true |}.

(** A cycle whose sampling raises. *)
Definition faulty : world :=
  {| w_signal := None;
     w_ctime := w_ctime calm;
     w_prom := w_prom calm;
     w_time := 1000;
     w_sin := w_sin calm;
     w_random := w_random calm;
     w_sample_fault := Some "sampling failed";
     w_now := 1000;
     w_log_file := LogMissing;
     w_log_ctime := w_log_ctime calm;
     w_openai := w_openai calm;
     w_docker_ps := w_docker_ps calm;
     w_docker_run := true;
     w_docker_restart := true |}.

(** A quiet cycle during whose fourth second of sleep SIGTERM arrives. *)
Definition interrupted : world :=
  {| w_signal := Some (AtSleep 3);
     w_ctime := w_ctime calm;
     w_prom := w_prom calm;
     w_time := 1000;
     w_sin := w_sin calm;
     w_random := w_random calm;
     w_sample_fault := None;
     w_now := 1000;
     w_log_file := LogMissing;
     w_log_ctime := w_log_ctime calm;
     w_openai := w_openai calm;
     w_docker_ps := w_docker_ps calm;
     w_docker_run := true;
     w_docker_restart := true |}.

(** Prometheus is up, and answers every CPU query with 150 %. *)
Definition g_prom : globals :=
  {| API_KEY := None; SLACK_WEBHOOK_URL := None; THRESHOLD := 80;
     CONTAINER_NAME := "test-container"; prom := true |}.

Definition overrange : world :=
  {| w_signal := None;
     w_ctime := w_ctime calm;
     w_prom := fun q => if String.eqb q "node_cpu_seconds_total"
                        then PromRows []
                        else PromRows [Some (Finite 150)];
     w_time := 1000;
     w_sin := w_sin calm;
     w_random := w_random calm;
     w_sample_fault := None;
     w_now := 1000;
     w_log_file := LogMissing;
     w_log_ctime := w_log_ctime calm;
     w_openai := w_openai calm;
     w_docker_ps := w_docker_ps calm;
     w_docker_run := true;
     w_docker_restart := true |}.

Definition b0 : boot :=
  {| b_signal := false; b_ctime_init := "Tue Nov  3 09:59:30 2026";
     b_makedirs := None; b_ctime_fatal := "Tue Nov  3 09:59:30 2026";
     b_late_signal := false; b_ctime_stop := "Tue Nov  3 10:00:04 2026" |}.

(** An environment that sets the four keys of the specification. *)
Definition spec_env : gmap string string :=
  <["THRESHOLD_PERCENT" := "50"]>
    (<["SUBJECT_NAME" := "web"]>
       (<["SAMPLING_INTERVAL_SECONDS" := "5"]>
          (<["COOLDOWN_SECONDS" := "10"]> ∅))).

End Scenario.

(** * Further observations

    Readings of traces and world updates used by the properties of the
    sampling, the handling sequence and the scheduler that follow the
    claims. *)

(** The phases of the statuses published in a trace, oldest first. *)
Definition phases (tr : list event) : list string :=
  omap (fun d => match d !! "status" with
                 | Some (JStr st) => Some st
                 | _ => None
                 end) (statuses tr).

(** The calls of the incident-handling path in a trace, in order. *)
Definition incident_calls (tr : list event) : list event :=
  List.filter incident_call tr.

(** The number of one-second rounds of the sleep loop in a trace. *)
Definition sleep_rounds (tr : list event) : nat :=
  length (List.filter (fun e => match e with Sleep 1 => true | _ => false end) tr).

(** The contract of [math.sin]: a value between -1 and 1. *)
Definition bounded_sin (w : world) : Prop :=
  forall x, (-1 <= w_sin w x <= 1)%Q.

(** No query of the [for] loop gives a value that passes the sanity
    check: each raises, is empty, has an unreadable first row or is out
    of range. *)
Definition no_usable_reply (w : world) : Prop :=
  forall q f rows,
    In q queries -> w_prom w q = PromRows (Some f :: rows) -> sane f = None.

(** The same world with another log file. *)
Definition with_log_file (f : log_file) (w : world) : world :=
  {| w_signal := w_signal w; w_ctime := w_ctime w; w_prom := w_prom w;
     w_time := w_time w; w_sin := w_sin w; w_random := w_random w;
     w_sample_fault := w_sample_fault w; w_now := w_now w;
     w_log_file := f; w_log_ctime := w_log_ctime w; w_openai := w_openai w;
     w_docker_ps := w_docker_ps w; w_docker_run := w_docker_run w;
     w_docker_restart := w_docker_restart w |}.

(** The same world with the signal arriving elsewhere, or not at all. *)
Definition with_signal (sg : option ckpt) (w : world) : world :=
  {| w_signal := sg; w_ctime := w_ctime w; w_prom := w_prom w;
     w_time := w_time w; w_sin := w_sin w; w_random := w_random w;
     w_sample_fault := w_sample_fault w; w_now := w_now w;
     w_log_file := w_log_file w; w_log_ctime := w_log_ctime w;
     w_openai := w_openai w; w_docker_ps := w_docker_ps w;
     w_docker_run := w_docker_run w; w_docker_restart := w_docker_restart w |}.

(** The same world with other docker outcomes. *)
Definition with_docker (ps : string + string) (run restart : bool) (w : world) : world :=
  {| w_signal := w_signal w; w_ctime := w_ctime w; w_prom := w_prom w;
     w_time := w_time w; w_sin := w_sin w; w_random := w_random w;
     w_sample_fault := w_sample_fault w; w_now := w_now w;
     w_log_file := w_log_file w; w_log_ctime := w_log_ctime w;
     w_openai := w_openai w; w_docker_ps := ps;
     w_docker_run := run; w_docker_restart := restart |}.

(** Prometheus has raw CPU data but no usable CPU query. *)
Definition raw_only : world :=
  {| w_signal := None;
     w_ctime := w_ctime Scenario.calm;
     w_prom := fun q => if String.eqb q "node_cpu_seconds_total"
                        then PromRows [None]
                        else PromRows [Some NaN];
     w_time := 1000;
     w_sin := w_sin Scenario.calm;
     w_random := w_random Scenario.calm;
     w_sample_fault := None;
     w_now := 1000;
     w_log_file := LogMissing;
     w_log_ctime := w_log_ctime Scenario.calm;
     w_openai := w_openai Scenario.calm;
     w_docker_ps := w_docker_ps Scenario.calm;
     w_docker_run := true;
     w_docker_restart := true |}.

(** Start-up with the threshold at full scale. *)
Definition g_full : globals :=
  {| API_KEY := None; SLACK_WEBHOOK_URL := None; THRESHOLD := 100;
     CONTAINER_NAME := "test-container"; prom := false |}.

(** The action text of a handling sequence, by the outcome of the restart. *)
Definition action_taken (g : globals) (w : world) : string :=
  if restart_succeeds g w then success_action g else failure_action.

(** The phase a handling sequence ends in. *)
Definition final_phase (g : globals) (w : world) : string :=
  if restart_succeeds g w then "Remediation Complete" else "Intervention Needed".

(** The four fields [update_ui_data] writes itself. *)
Definition bookkeeping_keys : list string :=
  ["last_updated"; "container_name"; "threshold"; "monitoring_active"].

(** Start-up fails on [os.makedirs], with no signal around. *)
Definition b_fatal : boot :=
  {| b_signal := false; b_ctime_init := "Tue Nov  3 09:59:30 2026";
     b_makedirs := Some "Permission denied";
     b_ctime_fatal := "Tue Nov  3 09:59:30 2026";
     b_late_signal := false; b_ctime_stop := "Tue Nov  3 09:59:30 2026" |}.

(** Notifications and incident records correspond one to one, in order,
    and there is one record per handling sequence started. *)
Definition balanced (tr : list event) : Prop :=
  map fst (records tr) = notifications tr
  /\ length (records tr) = length (trigger_times tr).

(** The four causes the keyword classifier can give. *)
Definition canned_causes : list string :=
  [ "Multiple worker processes causing CPU overload";
    "Memory pressure leading to excessive swapping";
    "High network activity overwhelming system";
    "Process inefficiency in container workload" ].

(** An API key that is set but empty. *)
Definition g_blank_key : globals :=
  {| API_KEY := Some ""; SLACK_WEBHOOK_URL := None; THRESHOLD := 80;
     CONTAINER_NAME := "test-container"; prom := false |}.

(** A log of 3033 characters: "worker processes" at its start, then
    3000 dots, then "memory pressure". *)
Definition long_log : string :=
  "worker processes "
    +:+ string_of_list_ascii (repeat "."%char 3000)
    +:+ " memory pressure".

(** ** [notify] behind the call (lines 233-258) *)

(** The line break of the payload. *)
Definition nl : string := String "010"%char EmptyString.

(** The text of the payload; [stamp] is [time.ctime()]. *)
Definition notify_text (g : globals) (stamp cause action : string) : string :=
  "🚨 *OpsBot Incident Report*" +:+ nl
    +:+ "*Issue:* CPU Spike Detected" +:+ nl
    +:+ "*Root Cause:* " +:+ cause +:+ nl
    +:+ "*Action Taken:* " +:+ action +:+ nl
    +:+ "*Status:* Resolved" +:+ nl
    +:+ "*Container:* " +:+ CONTAINER_NAME g +:+ nl
    +:+ "*Timestamp:* " +:+ stamp.

(** The request [notify] sends: the webhook and the text, or none when
    [SLACK_WEBHOOK_URL] is unset or empty. *)
Definition slack_request (g : globals) (stamp cause action : string) :
    option (string * string) :=
  match SLACK_WEBHOOK_URL g with
  | Some (String c url) => Some (String c url, notify_text g stamp cause action)
  | _ => None
  end.

(** Start-up with a webhook configured. *)
Definition g_slack : globals :=
  {| API_KEY := None; SLACK_WEBHOOK_URL := Some "https://hooks.example/T0/B0";
     THRESHOLD := 80; CONTAINER_NAME := "test-container"; prom := false |}.

(** ** The incident table: [log_incident] and the dashboard's [load_incidents]

    The table [incidents] of [data/incidents.db]: its rows in storage
    order, and the counter SQLite keeps for an [AUTOINCREMENT] key (the
    largest id ever given).  A column holds [None] for SQL [NULL]. *)

Record incident := {
  i_id : Z;
  i_cause : option string;
  i_action : option string;
  i_cpu_usage : option Q;
  i_container_name : option string;
  i_timestamp : option string
}.

Record table := {
  rows : list incident;
  sequence : Z
}.

(** [CREATE TABLE IF NOT EXISTS incidents (...)] on a database that may
    lack the table ([None]). *)
Definition create_table (db : option table) : table :=
  default {| rows := []; sequence := 0 |} db.

Definition max_id (l : list incident) : Z :=
  foldr (fun r m => Z.max (i_id r) m) 0 l.

(** The id [AUTOINCREMENT] gives to the next row: one more than the
    largest id the table has or ever had.  Ids are unbounded here; the
    error SQLite raises once the id 2^63 - 1 is used up is left out. *)
Definition next_id (t : table) : Z := Z.max (sequence t) (max_id (rows t)) + 1.

(** [INSERT INTO incidents (cause, action, cpu_usage, container_name,
    timestamp) VALUES (?, ?, ?, ?, ?)] *)
Definition insert_incident (g : globals) (stamp cause action : string) (cpu_usage : Q)
    (t : table) : table :=
  {| rows := rows t ++ [ {| i_id := next_id t;
                            i_cause := Some cause;
                            i_action := Some action;
                            i_cpu_usage := Some cpu_usage;
                            i_container_name := Some (CONTAINER_NAME g);
                            i_timestamp := Some stamp |} ];
     sequence := next_id t |}.

(** Where [log_incident] can raise: before the table is there
    ([os.makedirs], [connect], [CREATE TABLE]), before the insertion is
    committed ([INSERT], [commit]), or after it (the count, [close]). *)
Inductive db_fault :=
| FaultOpen
| FaultInsert
| FaultCount.

(** What [log_incident] does to the database, and the total it prints
    when it gets that far; [stamp] is [time.ctime()]. *)
Definition log_incident_db (g : globals) (stamp cause action : string) (cpu_usage : Q)
    (fault : option db_fault) (db : option table) : option table * option nat :=
  match fault with
  | Some FaultOpen => (db, None)
  | Some FaultInsert => (Some (create_table db), None)
  | Some FaultCount =>
      (Some (insert_incident g stamp cause action cpu_usage (create_table db)), None)
  | None =>
      let t := insert_incident g stamp cause action cpu_usage (create_table db) in
      (Some t, Some (length (rows t)))
  end.

(** A row as the dashboard's [SELECT] returns it. *)
Record listed := {
  l_id : Z;
  l_cause : option string;
  l_action : option string;
  l_cpu_usage : Q;
  l_container_name : string;
  l_timestamp : option string
}.

(** [SELECT id, cause, action, COALESCE(cpu_usage, 0),
    COALESCE(container_name, 'unknown'), timestamp] *)
Definition select_columns (r : incident) : listed :=
  {| l_id := i_id r;
     l_cause := i_cause r;
     l_action := i_action r;
     l_cpu_usage := default 0%Q (i_cpu_usage r);
     l_container_name := default "unknown" (i_container_name r);
     l_timestamp := i_timestamp r |}.

(** [ORDER BY id DESC], by insertion. *)
Fixpoint insert_desc (r : incident) (l : list incident) : list incident :=
  match l with
  | [] => [r]
  | x :: l' => if (i_id x <=? i_id r)%Z then r :: l else x :: insert_desc r l'
  end.

Definition order_by_id_desc (l : list incident) : list incident :=
  foldr insert_desc [] l.

(** [load_incidents] of [ui.py]: the ten newest incidents, or nothing
    when the database or the table is missing or the query raises. *)
Definition load_incidents (fault : bool) (db : option table) : list listed :=
  match db with
  | Some t =>
      if fault then []
      else map select_columns (firstn 10 (order_by_id_desc (rows t)))
  | None => []
  end.

(** A series of [log_incident] calls, each with its time stamp,
    arguments and fault. *)
Definition log_call : Type := string * string * string * Q * option db_fault.

Definition log_all (g : globals) (calls : list log_call) (db : option table) :
    option table :=
  foldl (fun d c =>
           match c with
           | (stamp, cause, action, cpu_usage, fault) =>
               (log_incident_db g stamp cause action cpu_usage fault d).1
           end) db calls.

(** The calls that reach the commit. *)
Definition committed (calls : list log_call) : list log_call :=
  List.filter (fun c => match c.2 with
                        | None | Some FaultCount => true
                        | _ => false
                        end) calls.

(** The rows of a database, none when the table is missing. *)
Definition rows_of (db : option table) : list incident :=
  match db with
  | Some t => rows t
  | None => []
  end.

(** Ids from the largest down. *)
Fixpoint descending (ids : list Z) : Prop :=
  match ids with
  | [] => True
  | x :: rest => Forall (fun y => (y < x)%Z) rest /\ descending rest
  end.

(** The cause, action and value columns of a row. *)
Definition content (r : incident) : option string * option string * option Q :=
  (i_cause r, i_action r, i_cpu_usage r).

(** The [log_incident] calls a trace makes, with the time stamp of each
    and no fault. *)
Definition record_calls (stamps : nat -> string) (tr : list event) : list log_call :=
  imap (fun n x => match x with
                   | (cause, action, cpu_usage) =>
                       (stamps n, cause, action, cpu_usage, None)
                   end) (records tr).

(** Two stored incidents, then a call that fails before the commit and
    one that goes through. *)
Definition two_incidents : option table :=
  log_all Scenario.g0
    [ ("Tue Nov  3 10:00:05 2026", "cause one", failure_action, 90%Q, None);
      ("Tue Nov  3 10:05:05 2026", "cause two", failure_action, 91%Q, Some FaultInsert);
      ("Tue Nov  3 10:10:05 2026", "cause three", failure_action, 92%Q, None) ]
    None.

(** A database the agent alone has written: ids 1, 2, ... in storage
    order, and the counter at the last of them. *)
Definition agent_built (db : option table) : Prop :=
  match db with
  | None => True
  | Some t =>
      map i_id (rows t) = map Z.of_nat (seq 1 (length (rows t)))
      /\ sequence t = Z.of_nat (length (rows t))
  end.

(** The columns a successful call stores. *)
Definition call_content (c : log_call) : option string * option string * option Q :=
  match c with
  | (_, cause, action, cpu_usage, _) => (Some cause, Some action, Some cpu_usage)
  end.

(** The columns an incident record of a trace stores. *)
Definition record_content (x : string * string * Q) :
    option string * option string * option Q :=
  match x with
  | (cause, action, cpu_usage) => (Some cause, Some action, Some cpu_usage)
  end.

(** Prometheus answers the first CPU query with 150 % and the second
    with 42 %. *)
Definition second_query_usable : world :=
  {| w_signal := None;
     w_ctime := w_ctime Scenario.calm;
     w_prom := fun q => if String.eqb q (nth 1 queries "")
                        then PromRows [Some (Finite 42)]
                        else PromRows [Some (Finite 150)];
     w_time := 1000;
     w_sin := w_sin Scenario.calm;
     w_random := w_random Scenario.calm;
     w_sample_fault := Some "not reached";
     w_now := 1000;
     w_log_file := LogMissing;
     w_log_ctime := w_log_ctime Scenario.calm;
     w_openai := w_openai Scenario.calm;
     w_docker_ps := w_docker_ps Scenario.calm;
     w_docker_run := true;
     w_docker_restart := true |}.

(** * Properties *)

(** ** Symbolic execution of the building blocks *)

Ltac run :=
  cbv [bind ret raise try_except emit get_store put_store poll lift publish
       update_ui_data notify log_incident signal_if app].

(** The same, leaving the concatenations of traces in place. *)
Ltac run_keeping_app :=
  cbv [bind ret raise try_except emit get_store put_store poll lift publish
       update_ui_data notify log_incident signal_if].

Lemma analyze_logs_run g w s :
  analyze_logs g w s = (inr (diagnosed_cause g w), s, [CallDiagnose]).
Proof.
  unfold analyze_logs, diagnosed_cause. run.
  destruct (analysis g w); reflexivity.
Qed.

Lemma update_ui_data_run g w p data s :
  update_ui_data g w p data s =
    (inr tt, deliver w p s,
     [Publish (stamped g (w_ctime w p) (running (deliver w p s)) data)]).
Proof. reflexivity. Qed.

Lemma monitor_cpu_once_run g w s :
  monitor_cpu_once g w s =
    let s1 := deliver w AtSample s in
    let pub v st := Publish (stamped g (w_ctime w AtSample) (running s1) (reading v st)) in
    match get_cpu_usage g w with
    | inr cpu =>
        if Qlt_bool (inject_Z (THRESHOLD g)) cpu
        then (inr (true, cpu), s1, [pub (JFloat cpu) "Spike Detected"])
        else (inr (false, cpu), s1, [pub (JFloat cpu) "Normal"])
    | inl e => (inr (false, 0%Q), s1, [pub (JInt 0) "Monitoring Error"])
    end.
Proof.
  unfold monitor_cpu_once. run.
  destruct (get_cpu_usage g w) as [e|cpu]; [reflexivity|].
  destruct (Qlt_bool _ cpu); reflexivity.
Qed.

Lemma handle_cpu_spike_run g w cpu s :
  handle_cpu_spike g w cpu s =
    let s1 := deliver w AtAnalyzing s in
    let s2 := deliver w AtRemediating s1 in
    let cause := diagnosed_cause g w in
    let opening :=
      [ Publish (stamped g (w_ctime w AtAnalyzing) (running s1)
                   (reading (JFloat cpu) "Analyzing..."));
        CallDiagnose;
        Publish (stamped g (w_ctime w AtRemediating) (running s2)
                   (reading (JFloat cpu) "Remediating..."));
        CallRemediate ] in
    if restart_succeeds g w
    then
      let s3 := deliver w AtRemediated s2 in
      (inr true, s3,
       opening ++
       [ Sleep 5;
         Publish (stamped g (w_ctime w AtRemediated) (running s3)
                    (<["cpu_usage" := JFloat 25]> (<["status" := JStr "Remediation Complete"]> ∅)));
         Notify cause (success_action g);
         RecordIncident cause (success_action g) cpu ])
    else
      let s3 := deliver w AtIntervention s2 in
      (inr false, s3,
       opening ++
       [ Notify cause failure_action;
         RecordIncident cause failure_action cpu;
         Publish (stamped g (w_ctime w AtIntervention) (running s3)
                    (<["cpu_usage" := JFloat cpu]> (<["status" := JStr "Intervention Needed"]> ∅))) ]).
Proof.
  unfold handle_cpu_spike, remediate, analyze_logs, diagnosed_cause. run.
  destruct (analysis g w); destruct (restart_succeeds g w); reflexivity.
Qed.

(** *** The store under signals *)

Lemma after_signal_refl s : after_signal s s.
Proof. now left. Qed.

Lemma after_signal_trans s1 s2 s3 :
  after_signal s1 s2 -> after_signal s2 s3 -> after_signal s1 s3.
Proof.
  intros [->| ->] [->| ->]; unfold after_signal; auto.
Qed.

Lemma deliver_after_signal w p s : after_signal s (deliver w p s).
Proof. unfold deliver. case_decide; [now right | now left]. Qed.

Lemma deliver_no_signal w p s : w_signal w = None -> deliver w p s = s.
Proof. intros H. unfold deliver. rewrite H. now case_decide. Qed.

Lemma deliver_at_signal w p s : w_signal w = Some p -> running (deliver w p s) = false.
Proof. intros H. unfold deliver. rewrite H. now case_decide. Qed.

Lemma after_signal_locals s s' :
  after_signal s s' ->
  cycle_count s' = cycle_count s /\ last_spike_time s' = last_spike_time s.
Proof. intros [->| ->]; auto. Qed.

Lemma after_signal_running s s' :
  after_signal s s' -> running s' = true -> s' = s.
Proof. intros [->| ->]; [auto | discriminate]. Qed.

Lemma after_signal_stopped s s' :
  after_signal s s' -> running s = false -> running s' = false.
Proof. intros [->| ->]; auto. Qed.

Create HintDb opsbot.
#[local] Hint Resolve after_signal_refl deliver_after_signal : opsbot.

(** *** The sleep loop *)

Lemma sleep_loop_run w n : forall i s,
  exists k s',
    sleep_loop w i n s = (inr tt, s', repeat (Sleep 1) k)
    /\ after_signal s s'
    /\ (w_signal w = None -> s' = s).
Proof.
  induction n as [|n IH]; intros i s.
  - exists 0%nat, s. repeat split; auto with opsbot.
  - cbn [sleep_loop]. run.
    destruct (running (deliver w (AtSleep i) s)) eqn:Hr.
    + destruct (IH (S i) (deliver w (AtSleep i) s)) as (k & s' & Heq & Has & Hno).
      exists (S k), s'. rewrite Heq. repeat split.
      * eapply after_signal_trans; eauto with opsbot.
      * intros Hnone. rewrite (Hno Hnone). now apply deliver_no_signal.
    + exists 0%nat, (deliver w (AtSleep i) s). repeat split; auto with opsbot.
      intros Hnone. now apply deliver_no_signal.
Qed.

(** *** One cycle *)

Lemma cycle_run g w s :
  exists k s',
    cycle g w s = (inr tt, s', (cycle_front g w s).2 ++ repeat (Sleep 1) k)
    /\ after_signal (cycle_front g w s).1 s'
    /\ (w_signal w = None -> s' = (cycle_front g w s).1).
Proof.
  unfold cycle, cycle_body, cycle_front. run.
  rewrite monitor_cpu_once_run. cbv beta iota zeta.
  set (s0 := set_cycle_count _ s). set (s1 := deliver w AtSample s0).
  destruct (get_cpu_usage g w) as [e|cpu].
  - cbn [fst snd].
    destruct (sleep_loop_run w MONITORING_INTERVAL 0 s1) as (k & s' & Heq & Has & Hno).
    exists k, s'. rewrite Heq. auto.
  - destruct (Qlt_bool (inject_Z (THRESHOLD g)) cpu); cbn [fst snd].
    + destruct (Qlt_bool 120 _).
      * rewrite handle_cpu_spike_run. cbv beta iota zeta.
        destruct (restart_succeeds g w);
          match goal with
          | |- context [sleep_loop w 0 MONITORING_INTERVAL ?st] =>
              destruct (sleep_loop_run w MONITORING_INTERVAL 0 st)
                as (k & s' & Heq & Has & Hno)
          end;
          exists k, s'; rewrite Heq; cbn [fst snd app];
          rewrite <- ?app_assoc; cbn [app]; auto.
      * destruct (sleep_loop_run w MONITORING_INTERVAL 0 (deliver w AtCooldown s1))
          as (k & s' & Heq & Has & Hno).
        exists k, s'. rewrite Heq. auto.
    + destruct (sleep_loop_run w MONITORING_INTERVAL 0 s1) as (k & s' & Heq & Has & Hno).
      exists k, s'. rewrite Heq. auto.
Qed.

(** *** Status records *)

Lemma stamped_status g stamp r data :
  stamped g stamp r data !! "status" = data !! "status".
Proof. unfold stamped. now rewrite !lookup_insert_ne by discriminate. Qed.

Lemma stamped_cpu_usage g stamp r data :
  stamped g stamp r data !! "cpu_usage" = data !! "cpu_usage".
Proof. unfold stamped. now rewrite !lookup_insert_ne by discriminate. Qed.

Lemma stamped_monitoring_active g stamp r data :
  stamped g stamp r data !! "monitoring_active" = Some (JBool r).
Proof. unfold stamped. now rewrite lookup_insert_eq. Qed.

Lemma stamped_threshold g stamp r data :
  stamped g stamp r data !! "threshold" = Some (JInt (THRESHOLD g)).
Proof.
  unfold stamped. rewrite lookup_insert_ne by discriminate.
  now rewrite lookup_insert_eq.
Qed.

Lemma stamped_container_name g stamp r data :
  stamped g stamp r data !! "container_name" = Some (JStr (CONTAINER_NAME g)).
Proof.
  unfold stamped. rewrite !lookup_insert_ne by discriminate.
  now rewrite lookup_insert_eq.
Qed.

Lemma stamped_last_updated g stamp r data :
  stamped g stamp r data !! "last_updated" = Some (JStr stamp).
Proof.
  unfold stamped. rewrite !lookup_insert_ne by discriminate.
  now rewrite lookup_insert_eq.
Qed.

Lemma reading_status v st : reading v st !! "status" = Some (JStr st).
Proof. unfold reading. now rewrite lookup_insert_eq. Qed.

Lemma reading_cpu_usage v st : reading v st !! "cpu_usage" = Some v.
Proof.
  unfold reading. rewrite lookup_insert_ne by discriminate.
  now rewrite lookup_insert_eq.
Qed.

Lemma no_incident_call_sleeps k :
  Forall (fun e => incident_call e = false) (repeat (Sleep 1) k).
Proof. induction k; cbn; auto. Qed.

(** ** Configuration *)

Lemma load_configuration_unset env :
  env !! "CPU_THRESHOLD" = None ->
  env !! "CONTAINER_NAME" = None ->
  load_configuration env = Some default_configuration.
Proof.
  intros Ht Hn. unfold load_configuration, startup, getenv.
  rewrite Ht, Hn. reflexivity.
Qed.

(** C8, as stated, fails: with the four specified keys set, the agent
    still runs on its defaults, where the specification's wording gives
    the values of the keys. *)
Lemma C8_specified_keys_not_read :
  load_configuration Scenario.spec_env = Some default_configuration
  /\ configuration_as_specified Scenario.spec_env
     = Some {| thresholdPercent := 50; subjectName := "web";
               samplingIntervalSeconds := 5; cooldownSeconds := 10 |}
  /\ load_configuration Scenario.spec_env
     <> configuration_as_specified Scenario.spec_env.
Proof.
  assert (H1 : load_configuration Scenario.spec_env = Some default_configuration)
    by (vm_compute; reflexivity).
  assert (H2 : configuration_as_specified Scenario.spec_env
               = Some {| thresholdPercent := 50; subjectName := "web";
                         samplingIntervalSeconds := 5; cooldownSeconds := 10 |})
    by (vm_compute; reflexivity).
  split; [exact H1|]. split; [exact H2|].
  rewrite H1, H2. intros H. inversion H.
Qed.

(** C8 (amended): the threshold is read from [CPU_THRESHOLD] (default
    80) and the subject name from [CONTAINER_NAME] (default
    "test-container"), each optional; the sampling interval is the
    constant 30 and the cooldown the constant 120, and none of the four
    keys the specification names is consulted. *)
Theorem C8_configuration_keys (env : gmap string string) (c : configuration) :
  load_configuration env = Some c ->
  PyStr.int (getenv env "CPU_THRESHOLD" "80") = Some (thresholdPercent c)
  /\ subjectName c = getenv env "CONTAINER_NAME" "test-container"
  /\ samplingIntervalSeconds c = 30%nat
  /\ cooldownSeconds c = 120%Q
  /\ (env !! "CPU_THRESHOLD" = None -> thresholdPercent c = 80)
  /\ (env !! "CONTAINER_NAME" = None -> subjectName c = "test-container")
  /\ (forall k v, In k specified_keys ->
        load_configuration (<[k := v]> env) = Some c).
Proof.
  unfold load_configuration, startup. intros H.
  destruct (PyStr.int (getenv env "CPU_THRESHOLD" "80")) as [th|] eqn:Hth;
    [|discriminate].
  cbn in H. injection H as <-. cbn [configuration_of thresholdPercent subjectName
    samplingIntervalSeconds cooldownSeconds THRESHOLD CONTAINER_NAME].
  repeat split; auto.
  - intros Hnone. unfold getenv in Hth. rewrite Hnone in Hth.
    vm_compute in Hth. congruence.
  - intros Hnone. unfold getenv. now rewrite Hnone.
  - intros k v Hk. unfold getenv in *.
    assert (Hne1 : k <> "CPU_THRESHOLD")
      by (cbn in Hk; intuition (subst; discriminate)).
    assert (Hne2 : k <> "CONTAINER_NAME")
      by (cbn in Hk; intuition (subst; discriminate)).
    rewrite (lookup_insert_ne env k "CPU_THRESHOLD") by assumption.
    rewrite (lookup_insert_ne env k "CONTAINER_NAME") by assumption.
    rewrite Hth. reflexivity.
Qed.

Lemma C8_configuration_keys_witness :
  load_configuration ∅ = Some default_configuration
  /\ thresholdPercent default_configuration = 80
  /\ load_configuration (<["COOLDOWN_SECONDS" := "10"]> ∅) = Some default_configuration.
Proof.
  assert (H : load_configuration ∅ = Some default_configuration)
    by (vm_compute; reflexivity).
  destruct (C8_configuration_keys ∅ default_configuration H)
    as (_ & _ & _ & _ & Hth & _ & Hkeys).
  split; [exact H|]. split; [apply Hth; reflexivity|].
  apply Hkeys. cbn. auto.
Defined.

(** ** Traces, comparisons and action texts *)

Lemma sleeps_only k : Forall (fun ev => ev = Sleep 1) (repeat (Sleep 1) k).
Proof. induction k; cbn [repeat]; constructor; auto. Qed.

Lemma statuses_sleeps k : statuses (repeat (Sleep 1) k) = [].
Proof. induction k; cbn; auto. Qed.

Lemma records_sleeps k : records (repeat (Sleep 1) k) = [].
Proof. induction k; cbn; auto. Qed.

Lemma notifications_sleeps k : notifications (repeat (Sleep 1) k) = [].
Proof. induction k; cbn; auto. Qed.

Lemma statuses_app t1 t2 : statuses (t1 ++ t2) = statuses t1 ++ statuses t2.
Proof. apply omap_app. Qed.

Lemma records_app t1 t2 : records (t1 ++ t2) = records t1 ++ records t2.
Proof. apply omap_app. Qed.

Lemma Qlt_bool_iff (a b : Q) : Qlt_bool a b = true <-> (a < b)%Q.
Proof.
  unfold Qlt_bool. rewrite negb_true_iff. split.
  - intros H. apply Qnot_le_lt. intros Hle.
    apply Qle_bool_iff in Hle. congruence.
  - intros H. destruct (Qle_bool b a) eqn:E; [|reflexivity].
    apply Qle_bool_iff in E. exfalso. now apply (Qlt_not_le a b).
Qed.

Lemma Qlt_bool_false (a b : Q) : Qlt_bool a b = false <-> (b <= a)%Q.
Proof.
  unfold Qlt_bool. rewrite negb_false_iff. apply Qle_bool_iff.
Qed.

Lemma contains_app_r needle a b :
  PyStr.contains needle b = true -> PyStr.contains needle (a +:+ b) = true.
Proof.
  intros H. induction a as [|c a IH]; [exact H|].
  change (String c a +:+ b) with (String c (a +:+ b)).
  change (PyStr.contains needle (String c (a +:+ b)))
    with (String.prefix needle (String c (a +:+ b))
          || PyStr.contains needle (a +:+ b)).
  rewrite IH. apply orb_true_r.
Qed.

Lemma success_action_text g :
  PyStr.contains "restarted successfully" (success_action g) = true.
Proof.
  unfold success_action. apply contains_app_r. apply contains_app_r.
  vm_compute. reflexivity.
Qed.

Lemma failure_action_text :
  PyStr.contains "manual intervention required" failure_action = true.
Proof. vm_compute. reflexivity. Qed.

(** ** Sampling failures (C10) *)

(** C10: when sampling raises, [monitor_cpu_once] catches the exception,
    publishes a "Monitoring Error" status with value 0 and returns
    [(False, 0)]; the cycle then raises nothing and makes no call of the
    incident-handling path. *)
Theorem C10_sampling_failure_contained
    (g : globals) (w : world) (s : store) (e : string) :
  get_cpu_usage g w = inl e ->
  (exists d,
      monitor_cpu_once g w s = (inr (false, 0%Q), deliver w AtSample s, [Publish d])
      /\ d !! "status" = Some (JStr "Monitoring Error")
      /\ d !! "cpu_usage" = Some (JInt 0))
  /\ (exists s' tr,
         cycle g w s = (inr tt, s', tr)
         /\ Forall (fun ev => incident_call ev = false) tr).
Proof.
  intros He. split.
  - rewrite monitor_cpu_once_run, He. cbv beta iota zeta.
    eexists. split; [reflexivity|].
    rewrite stamped_status, stamped_cpu_usage, reading_status, reading_cpu_usage.
    auto.
  - destruct (cycle_run g w s) as (k & s' & Heq & _ & _).
    exists s'. eexists. split; [exact Heq|].
    unfold cycle_front. rewrite He. cbn [fst snd].
    apply Forall_app. split.
    + repeat constructor.
    + apply no_incident_call_sleeps.
Qed.

Lemma C10_sampling_failure_contained_witness :
  get_cpu_usage Scenario.g0 Scenario.faulty = inl "sampling failed"
  /\ exists s' tr,
       cycle Scenario.g0 Scenario.faulty initial_store = (inr tt, s', tr)
       /\ Forall (fun ev => incident_call ev = false) tr.
Proof.
  assert (H : get_cpu_usage Scenario.g0 Scenario.faulty = inl "sampling failed")
    by reflexivity.
  split; [exact H|].
  exact (proj2 (C10_sampling_failure_contained
                  Scenario.g0 Scenario.faulty initial_store _ H)).
Defined.

(** ** Remediation outcomes (C3, C4) *)

(** C3, as stated, fails: in a cycle whose restart succeeds, nothing is
    published after the incident record, and the last status of the
    cycle is "Remediation Complete", not "Normal". *)
Lemma C3_no_normal_status_after_success :
  let tr := (cycle Scenario.g0 (Scenario.spike 1000 true) initial_store).2 in
  restart_succeeds Scenario.g0 (Scenario.spike 1000 true) = true
  /\ (exists d, last (statuses tr) = Some d
                /\ d !! "status" = Some (JStr "Remediation Complete"))
  /\ ~ (exists post d,
           after_record tr = Some post
           /\ In d (statuses post)
           /\ d !! "status" = Some (JStr "Normal")).
Proof.
  cbv zeta.
  set (tr := (cycle Scenario.g0 (Scenario.spike 1000 true) initial_store).2).
  assert (Hlast : (last (statuses tr) ≫= (.!! "status"))
                  = Some (JStr "Remediation Complete"))
    by (vm_compute; reflexivity).
  assert (Hpost : (statuses <$> after_record tr) = Some [])
    by (vm_compute; reflexivity).
  split; [vm_compute; reflexivity|]. split.
  - destruct (last (statuses tr)) as [d|]; [|discriminate Hlast].
    exists d. split; [reflexivity | exact Hlast].
  - intros (post & d & Hp & Hin & _).
    rewrite Hp in Hpost. injection Hpost as Hpost.
    rewrite Hpost in Hin. exact Hin.
Qed.

(** C3 (amended): when remediation succeeds, [remediate] publishes a
    status "Remediation Complete" with value 25.0, and the controller
    then sends the notification and appends an incident record whose
    action text contains "restarted successfully"; these are the last
    calls of the handling sequence, which publishes no further status. *)
Theorem C3_remediation_success
    (g : globals) (w : world) (cpu : Q) (s : store) :
  restart_succeeds g w = true ->
  exists s' pre d cause,
    handle_cpu_spike g w cpu s
    = (inr true, s',
       pre ++ [ Publish d;
                Notify cause (success_action g);
                RecordIncident cause (success_action g) cpu ])
    /\ d !! "status" = Some (JStr "Remediation Complete")
    /\ d !! "cpu_usage" = Some (JFloat 25)
    /\ PyStr.contains "restarted successfully" (success_action g) = true.
Proof.
  intros Hok. rewrite handle_cpu_spike_run, Hok. cbv beta iota zeta.
  eexists. eexists (_ :: _ :: _ :: _ :: [_]). eexists. eexists.
  split; [cbn [app]; reflexivity|].
  rewrite stamped_status, stamped_cpu_usage.
  rewrite lookup_insert_eq.
  rewrite lookup_insert_ne by discriminate. rewrite lookup_insert_eq.
  auto using success_action_text.
Qed.

Lemma C3_remediation_success_witness :
  restart_succeeds Scenario.g0 (Scenario.spike 1000 true) = true
  /\ exists s' pre d cause,
       handle_cpu_spike Scenario.g0 (Scenario.spike 1000 true) (851 # 10) initial_store
       = (inr true, s',
          pre ++ [ Publish d;
                   Notify cause (success_action Scenario.g0);
                   RecordIncident cause (success_action Scenario.g0) (851 # 10) ])
       /\ d !! "status" = Some (JStr "Remediation Complete")
       /\ d !! "cpu_usage" = Some (JFloat 25)
       /\ PyStr.contains "restarted successfully" (success_action Scenario.g0) = true.
Proof.
  split; [reflexivity|].
  apply (C3_remediation_success Scenario.g0 (Scenario.spike 1000 true)).
  reflexivity.
Defined.

(** *** Cycles that handle an incident *)

Lemma deliver_cycle_count w p s : cycle_count (deliver w p s) = cycle_count s.
Proof. apply (after_signal_locals s), deliver_after_signal. Qed.

Lemma deliver_last_spike_time w p s :
  last_spike_time (deliver w p s) = last_spike_time s.
Proof. apply (after_signal_locals s), deliver_after_signal. Qed.

Lemma cycle_front_handling g w s cpu :
  handles g w s cpu ->
  cycle_front g w s =
    let s1 := deliver w AtSample (set_cycle_count (S (cycle_count s)) s) in
    (set_last_spike_time (w_now w) (handle_cpu_spike g w cpu s1).1.2,
     Publish (stamped g (w_ctime w AtSample) (running s1)
                (reading (JFloat cpu) "Spike Detected"))
       :: HandleSpike (w_now w) cpu
       :: (handle_cpu_spike g w cpu s1).2 ++ [SetLastSpike (w_now w)]).
Proof.
  intros (Hget & Hth & Hcd). unfold cycle_front.
  apply Qlt_bool_iff in Hth. apply Qlt_bool_iff in Hcd.
  rewrite Hget, Hth, deliver_last_spike_time.
  cbn [last_spike_time set_cycle_count]. unfold cooldown_seconds in Hcd.
  rewrite Hcd. cbv zeta.
  destruct (handle_cpu_spike g w cpu _) as [[r s2] t2]. reflexivity.
Qed.

Lemma monitoring_loop_step g w ws s s1 tr1 :
  running (deliver w AtLoop s) = true ->
  cycle g w (deliver w AtLoop s) = (inr tt, s1, tr1) ->
  monitoring_loop g (w :: ws) s =
    let '(r, s2, tr2) := monitoring_loop g ws s1 in (r, s2, tr1 ++ tr2).
Proof.
  intros Hr Hc. cbn [monitoring_loop]. run. rewrite Hr, Hc.
  destruct (monitoring_loop g ws s1) as [[r s2] t2]. reflexivity.
Qed.

Lemma monitoring_loop_stop g w ws s :
  running (deliver w AtLoop s) = false ->
  monitoring_loop g (w :: ws) s = (inr true, deliver w AtLoop s, []).
Proof. intros Hr. cbn [monitoring_loop]. run. now rewrite Hr. Qed.

Lemma monitoring_loop_two_steps g w w' ws s s1 s2 tr1 tr2 r s3 tr3 :
  running s = true ->
  w_signal w <> Some AtLoop ->
  running s1 = true ->
  w_signal w' <> Some AtLoop ->
  cycle g w s = (inr tt, s1, tr1) ->
  cycle g w' s1 = (inr tt, s2, tr2) ->
  monitoring_loop g ws s2 = (r, s3, tr3) ->
  monitoring_loop g (w :: w' :: ws) s = (r, s3, tr1 ++ tr2 ++ tr3).
Proof.
  intros Hr Hw Hr1 Hw' Hc Hc' Hl.
  assert (Hd : deliver w AtLoop s = s)
    by (unfold deliver; case_decide; [contradiction | reflexivity]).
  assert (Hd' : deliver w' AtLoop s1 = s1)
    by (unfold deliver; case_decide; [contradiction | reflexivity]).
  rewrite <- Hd in Hc, Hr. rewrite <- Hd' in Hc', Hr1.
  rewrite (monitoring_loop_step _ _ (w' :: ws) _ _ _ Hr Hc).
  rewrite (monitoring_loop_step _ _ ws _ _ _ Hr1 Hc').
  rewrite Hl. reflexivity.
Qed.

Lemma cycle_front_count g w s :
  cycle_count (cycle_front g w s).1 = S (cycle_count s).
Proof.
  unfold cycle_front.
  destruct (get_cpu_usage g w) as [e|cpu]; cbn [fst].
  - now rewrite deliver_cycle_count.
  - destruct (Qlt_bool _ cpu); [destruct (Qlt_bool 120 _)|]; cbn [fst].
    + rewrite handle_cpu_spike_run. cbv zeta.
      destruct (restart_succeeds g w); cbn [fst cycle_count set_last_spike_time];
        now rewrite !deliver_cycle_count.
    + now rewrite !deliver_cycle_count.
    + now rewrite deliver_cycle_count.
Qed.

Lemma cycle_count_next g w s s' tr :
  cycle g w s = (inr tt, s', tr) -> cycle_count s' = S (cycle_count s).
Proof.
  intros H. destruct (cycle_run g w s) as (k & s1 & Heq & Has & _).
  rewrite H in Heq. injection Heq as <- _.
  rewrite (proj1 (after_signal_locals _ _ Has)). apply cycle_front_count.
Qed.

(** C4: when remediation fails, the cycle still notifies, appends
    exactly one incident record, whose action text contains "manual
    intervention required", and ends with the status "Intervention
    Needed"; nothing is raised and [running] stays set, so the loop
    goes on with the next cycle. *)
Theorem C4_remediation_failure
    (g : globals) (w w' : world) (ws : list world) (s : store) (cpu : Q) :
  running s = true ->
  w_signal w = None ->
  w_signal w' <> Some AtLoop ->
  handles g w s cpu ->
  restart_succeeds g w = false ->
  exists s1 tr1 cause d,
    cycle g w s = (inr tt, s1, tr1)
    /\ notifications tr1 = [(cause, failure_action)]
    /\ records tr1 = [(cause, failure_action, cpu)]
    /\ PyStr.contains "manual intervention required" failure_action = true
    /\ last (statuses tr1) = Some d
    /\ d !! "status" = Some (JStr "Intervention Needed")
    /\ running s1 = true
    /\ exists s2 tr2 r s3 tr3,
         cycle g w' s1 = (inr tt, s2, tr2)
         /\ cycle_count s2 = S (S (cycle_count s))
         /\ monitoring_loop g ws s2 = (r, s3, tr3)
         /\ monitoring_loop g (w :: w' :: ws) s = (r, s3, tr1 ++ tr2 ++ tr3).
Proof.
  intros Hrun Hsig Hsig' Hh Hfail.
  destruct (cycle_run g w s) as (k & s1 & Heq & _ & Hs1).
  specialize (Hs1 Hsig).
  rewrite (cycle_front_handling _ _ _ _ Hh) in Heq, Hs1.
  cbv zeta in Heq, Hs1.
  rewrite handle_cpu_spike_run, Hfail in Heq, Hs1.
  cbv zeta in Heq, Hs1. cbn [fst snd] in Heq, Hs1.
  rewrite !(deliver_no_signal w) in Hs1 by assumption.
  assert (Hrun1 : running s1 = true) by (now rewrite Hs1).
  exists s1. eexists. exists (diagnosed_cause g w). eexists.
  split; [exact Heq|].
  split; [unfold notifications; rewrite !app_comm_cons, omap_app;
          fold (notifications (repeat (Sleep 1) k));
          rewrite notifications_sleeps; reflexivity|].
  split; [unfold records; rewrite !app_comm_cons, omap_app;
          fold (records (repeat (Sleep 1) k));
          rewrite records_sleeps; reflexivity|].
  split; [exact failure_action_text|].
  split; [rewrite !app_comm_cons, statuses_app, statuses_sleeps, app_nil_r;
          reflexivity|].
  split; [rewrite stamped_status, lookup_insert_ne by discriminate;
          now rewrite lookup_insert_eq|].
  split; [exact Hrun1|].
  destruct (cycle_run g w' s1) as (k' & s2 & Heq' & _ & _).
  destruct (monitoring_loop g ws s2) as [[r s3] tr3] eqn:Hloop.
  exists s2. eexists. exists r, s3, tr3.
  split; [exact Heq'|].
  split; [rewrite (cycle_count_next _ _ _ _ _ Heq'),
            (cycle_count_next _ _ _ _ _ Heq); reflexivity|].
  split; [exact Hloop|].
  eapply monitoring_loop_two_steps; eauto.
  rewrite Hsig. discriminate.
Qed.

Lemma C4_remediation_failure_witness :
  handles Scenario.g0 (Scenario.spike 1000 false) initial_store Scenario.spike_value
  /\ restart_succeeds Scenario.g0 (Scenario.spike 1000 false) = false
  /\ exists s1 tr1 cause d,
       cycle Scenario.g0 (Scenario.spike 1000 false) initial_store = (inr tt, s1, tr1)
       /\ notifications tr1 = [(cause, failure_action)]
       /\ records tr1 = [(cause, failure_action, Scenario.spike_value)]
       /\ PyStr.contains "manual intervention required" failure_action = true
       /\ last (statuses tr1) = Some d
       /\ d !! "status" = Some (JStr "Intervention Needed")
       /\ running s1 = true
       /\ exists s2 tr2 r s3 tr3,
            cycle Scenario.g0 Scenario.calm s1 = (inr tt, s2, tr2)
            /\ cycle_count s2 = S (S (cycle_count initial_store))
            /\ monitoring_loop Scenario.g0 [] s2 = (r, s3, tr3)
            /\ monitoring_loop Scenario.g0
                 [Scenario.spike 1000 false; Scenario.calm] initial_store
               = (r, s3, tr1 ++ tr2 ++ tr3).
Proof.
  assert (Hh : handles Scenario.g0 (Scenario.spike 1000 false) initial_store
                 Scenario.spike_value)
    by (repeat split; vm_compute; reflexivity).
  assert (Hs : w_signal Scenario.calm <> Some AtLoop) by (cbn; discriminate).
  split; [exact Hh|]. split; [reflexivity|].
  exact (C4_remediation_failure Scenario.g0 (Scenario.spike 1000 false)
           Scenario.calm [] initial_store Scenario.spike_value
           eq_refl eq_refl Hs Hh eq_refl).
Defined.

(** ** Diagnosis failures (C5) *)

(** C5, as stated, fails: when the diagnosis raises "timed out", the
    cause handed to the notification is "Log analysis failed: timed
    out", not "diagnosis unavailable". *)
Lemma C5_fallback_cause_differs :
  let tr := (handle_cpu_spike Scenario.g0 Scenario.undiagnosed
               Scenario.spike_value initial_store).2 in
  analysis Scenario.g0 Scenario.undiagnosed = inl "timed out"
  /\ notifications tr
     = [("Log analysis failed: timed out", success_action Scenario.g0)]
  /\ ~ (forall c a, In (c, a) (notifications tr) -> c = "diagnosis unavailable").
Proof.
  cbv zeta.
  assert (Hn : notifications (handle_cpu_spike Scenario.g0 Scenario.undiagnosed
                                Scenario.spike_value initial_store).2
               = [("Log analysis failed: timed out", success_action Scenario.g0)])
    by (vm_compute; reflexivity).
  split; [reflexivity|]. split; [exact Hn|].
  intros H. rewrite Hn in H.
  specialize (H _ _ (or_introl eq_refl)). discriminate H.
Qed.

(** C5 (amended): when the body of [analyze_logs] raises [e], the cause
    handed to the notification and to the incident record is "Log
    analysis failed: " followed by [e], and remediation still runs
    after the diagnosis. *)
Theorem C5_diagnosis_failure
    (g : globals) (w : world) (cpu : Q) (s : store) (e : string) :
  analysis g w = inl e ->
  exists ok s' tr action pre post,
    handle_cpu_spike g w cpu s = (inr ok, s', tr)
    /\ notifications tr = [("Log analysis failed: " +:+ e, action)]
    /\ records tr = [("Log analysis failed: " +:+ e, action, cpu)]
    /\ tr = pre ++ CallDiagnose :: post
    /\ In CallRemediate post.
Proof.
  intros He. rewrite handle_cpu_spike_run. cbv zeta.
  assert (Hc : diagnosed_cause g w = "Log analysis failed: " +:+ e)
    by (unfold diagnosed_cause; now rewrite He).
  rewrite Hc.
  destruct (restart_succeeds g w).
  - exists true. eexists. eexists. exists (success_action g).
    eexists [_]. eexists.
    split; [reflexivity|]. split; [reflexivity|]. split; [reflexivity|].
    split; [reflexivity|]. cbn [In app]. auto.
  - exists false. eexists. eexists. exists failure_action.
    eexists [_]. eexists.
    split; [reflexivity|]. split; [reflexivity|]. split; [reflexivity|].
    split; [reflexivity|]. cbn [In app]. auto.
Qed.

Lemma C5_diagnosis_failure_witness :
  analysis Scenario.g0 Scenario.undiagnosed = inl "timed out"
  /\ exists ok s' tr action pre post,
       handle_cpu_spike Scenario.g0 Scenario.undiagnosed Scenario.spike_value
         initial_store = (inr ok, s', tr)
       /\ notifications tr = [("Log analysis failed: " +:+ "timed out", action)]
       /\ records tr
          = [("Log analysis failed: " +:+ "timed out", action, Scenario.spike_value)]
       /\ tr = pre ++ CallDiagnose :: post
       /\ In CallRemediate post.
Proof.
  split; [reflexivity|].
  apply (C5_diagnosis_failure Scenario.g0 Scenario.undiagnosed). reflexivity.
Defined.

(** ** When the trigger time is recorded (C1) *)

(** C1, as stated, fails: in a cycle that handles a spike the diagnosis
    starts before [last_spike_time] is assigned. *)
Lemma C1_diagnosis_precedes_recording :
  ~ recorded_before_diagnosis
      (cycle Scenario.g0 (Scenario.spike 1000 true) initial_store).2.
Proof.
  intros H.
  set (tr := (cycle Scenario.g0 (Scenario.spike 1000 true) initial_store).2) in *.
  assert (Hsplit : tr = firstn 3 tr ++ CallDiagnose :: skipn 4 tr)
    by (vm_compute; reflexivity).
  destruct (H _ _ Hsplit) as [t Hin].
  assert (Hnone : forallb (fun ev => match ev with
                                     | SetLastSpike _ => false
                                     | _ => true
                                     end) (firstn 3 tr) = true)
    by (vm_compute; reflexivity).
  rewrite forallb_forall in Hnone. specialize (Hnone _ Hin). discriminate Hnone.
Qed.

(** C1 (amended): in a cycle that handles a spike, the current time is
    read before the diagnosis begins, and [last_spike_time] is set to
    that reading once [handle_cpu_spike] has returned, that is after
    the diagnosis and the remediation; it is the only assignment of the
    cycle, and only sleeping follows it. *)
Theorem C1_trigger_time_recorded_after_handling
    (g : globals) (w : world) (s : store) (cpu : Q) :
  handles g w s cpu ->
  exists s' d mid post,
    cycle g w s
    = (inr tt, s',
       Publish d :: HandleSpike (w_now w) cpu :: mid
         ++ SetLastSpike (w_now w) :: post)
    /\ In CallDiagnose mid
    /\ In CallRemediate mid
    /\ (forall t, ~ In (SetLastSpike t) mid)
    /\ Forall (fun ev => ev = Sleep 1) post
    /\ last_spike_time s' = w_now w.
Proof.
  intros Hh.
  destruct (cycle_run g w s) as (k & s' & Heq & Has & _).
  rewrite (cycle_front_handling _ _ _ _ Hh) in Heq, Has.
  cbv zeta in Heq, Has. cbn [fst snd] in Heq, Has.
  exists s'. eexists. exists (handle_cpu_spike g w cpu
    (deliver w AtSample (set_cycle_count (S (cycle_count s)) s))).2.
  exists (repeat (Sleep 1) k).
  split; [rewrite Heq; cbn [app]; now rewrite <- app_assoc|].
  rewrite handle_cpu_spike_run. cbv zeta.
  split; [destruct (restart_succeeds g w); cbn [snd In app]; auto|].
  split; [destruct (restart_succeeds g w); cbn [snd In app]; auto|].
  split.
  - intros t. destruct (restart_succeeds g w); cbn [snd In app];
      intuition discriminate.
  - split; [apply sleeps_only|].
    now rewrite (proj2 (after_signal_locals _ _ Has)).
Qed.

Lemma C1_trigger_time_recorded_after_handling_witness :
  handles Scenario.g0 (Scenario.spike 1000 true) initial_store Scenario.spike_value
  /\ exists s' d mid post,
       cycle Scenario.g0 (Scenario.spike 1000 true) initial_store
       = (inr tt, s',
          Publish d :: HandleSpike 1000 Scenario.spike_value :: mid
            ++ SetLastSpike 1000 :: post)
       /\ In CallDiagnose mid
       /\ In CallRemediate mid
       /\ (forall t, ~ In (SetLastSpike t) mid)
       /\ Forall (fun ev => ev = Sleep 1) post
       /\ last_spike_time s' = 1000%Q.
Proof.
  assert (Hh : handles Scenario.g0 (Scenario.spike 1000 true) initial_store
                 Scenario.spike_value)
    by (repeat split; vm_compute; reflexivity).
  split; [exact Hh|].
  exact (C1_trigger_time_recorded_after_handling _ _ _ _ Hh).
Defined.

(** ** Whole runs *)

Lemma monitoring_loop_nil g s :
  monitoring_loop g [] s = (inr (negb (running s)), s, []).
Proof. reflexivity. Qed.


(** A property of events that holds of everything a cycle can emit
    holds of everything the loop emits. *)
Lemma monitoring_loop_events (P : event -> Prop) g ws :
  P (Sleep 1) ->
  (forall w s, In w ws -> Forall P (cycle_front g w s).2) ->
  forall s, Forall P (monitoring_loop g ws s).2.
Proof.
  intros Hsleep. induction ws as [|w ws IH]; intros Hc s.
  - constructor.
  - destruct (running (deliver w AtLoop s)) eqn:Hr.
    + destruct (cycle_run g w (deliver w AtLoop s)) as (k & s1 & Heq & _ & _).
      rewrite (monitoring_loop_step _ _ ws _ _ _ Hr Heq).
      specialize (IH (fun w' s' Hin => Hc w' s' (or_intror Hin)) s1).
      destruct (monitoring_loop g ws s1) as [[r s2] tr2]. cbn [snd] in *.
      rewrite !Forall_app. repeat split; auto.
      * apply Hc. now left.
      * clear -Hsleep. induction k; cbn [repeat]; constructor; auto.
    + rewrite (monitoring_loop_stop _ _ _ _ Hr). constructor.
Qed.

Lemma exec_main_run g b ws :
  exec_main g b ws =
    let s0 := entry_store b in
    let init := Publish (stamped g (b_ctime_init b) (running s0) init_data) in
    let fatal e s1 t :=
      let s2 := if b_late_signal b then set_running false s1 else s1 in
      (inr true, s2,
       (init :: t)
         ++ [ Publish (stamped g (b_ctime_fatal b) (running s2) (fatal_data e));
              Publish (stamped g (b_ctime_stop b) (running s2) stop_data) ]) in
    match b_makedirs b with
    | Some e => fatal e s0 []
    | None =>
        match monitoring_loop g ws (set_last_spike_time 0 (set_cycle_count 0 s0)) with
        | (inl e, s1, t) => fatal e s1 t
        | (inr true, s1, t) =>
            (inr true, s1,
             (init :: t)
               ++ [Publish (stamped g (b_ctime_stop b) (running s1) stop_data)])
        | (inr false, s1, t) => (inr false, s1, (init :: t) ++ [])
        end
    end.
Proof.
  unfold exec_main, main, continuous_monitoring, entry_store. run_keeping_app.
  destruct (b_signal b); destruct (b_makedirs b) as [e|];
    try (destruct (b_late_signal b); reflexivity);
    match goal with
    | |- context [monitoring_loop g ws ?st] =>
        destruct (monitoring_loop g ws st) as [[[e|[|]] s1] t]
    end;
    try (destruct (b_late_signal b));
    cbn [app]; rewrite <- ?app_assoc, ?app_nil_r; cbn [app]; reflexivity.
Qed.




(** A property of events that holds of what the cycles and the
    [__main__] block can emit holds of the whole run. *)
Lemma exec_main_events (P : event -> Prop) g b ws :
  P (Sleep 1) ->
  (forall w s, In w ws -> Forall P (cycle_front g w s).2) ->
  (forall r, P (Publish (stamped g (b_ctime_init b) r init_data))) ->
  (forall e r, P (Publish (stamped g (b_ctime_fatal b) r (fatal_data e)))) ->
  (forall r, P (Publish (stamped g (b_ctime_stop b) r stop_data))) ->
  Forall P (exec_main g b ws).2.
Proof.
  intros Hsleep Hcycle Hinit Hfatal Hstop.
  rewrite exec_main_run. cbv zeta.
  destruct (b_makedirs b) as [e|].
  - cbn [snd app].
    apply List.Forall_cons; [apply Hinit|].
    apply List.Forall_cons; [apply Hfatal|].
    apply List.Forall_cons; [apply Hstop|]. apply List.Forall_nil.
  - pose proof (monitoring_loop_events P g ws Hsleep Hcycle
                  (set_last_spike_time 0 (set_cycle_count 0 (entry_store b))))
      as Hloop.
    destruct (monitoring_loop g ws _) as [[[e|[|]] s1] t];
      cbn [snd] in Hloop |- *; apply Forall_app; split.
    + apply List.Forall_cons; [apply Hinit | exact Hloop].
    + apply List.Forall_cons; [apply Hfatal|].
      apply List.Forall_cons; [apply Hstop|]. apply List.Forall_nil.
    + apply List.Forall_cons; [apply Hinit | exact Hloop].
    + apply List.Forall_cons; [apply Hstop|]. apply List.Forall_nil.
    + apply List.Forall_cons; [apply Hinit | exact Hloop].
    + apply List.Forall_nil.
Qed.


(** ** Shutdown (C7) *)



(** ** The schema of the status record (C9) *)

(** C9, as stated, fails: the record published on shutdown has no
    [cpu_usage] field. *)
Lemma C9_stopped_record_lacks_value :
  let tr := (exec_main Scenario.g0 Scenario.b0 [Scenario.interrupted]).2 in
  (exists d, last (statuses tr) = Some d
             /\ d !! "status" = Some (JStr "Stopped")
             /\ d !! "cpu_usage" = None)
  /\ ~ Forall (has_keys required_keys) (statuses tr).
Proof.
  cbv zeta.
  set (tr := (exec_main Scenario.g0 Scenario.b0 [Scenario.interrupted]).2).
  assert (Hl : last (statuses tr)
               = Some (stamped Scenario.g0 (b_ctime_stop Scenario.b0) false stop_data))
    by (vm_compute; reflexivity).
  assert (Hv : stamped Scenario.g0 (b_ctime_stop Scenario.b0) false stop_data
               !! "cpu_usage" = None) by (vm_compute; reflexivity).
  split.
  - eexists. split; [exact Hl|]. split; [vm_compute; reflexivity | exact Hv].
  - intros H. rewrite Forall_forall in H.
    specialize (H _ (last_Some_elem_of _ _ Hl)).
    unfold has_keys, required_keys in H. apply Forall_cons in H as [[v H] _].
    rewrite Hv in H. discriminate H.
Qed.

Lemma well_formed_stamped g stamp r data :
  is_Some (data !! "status") ->
  is_Some (data !! "cpu_usage") \/ valueless data ->
  well_formed (stamped g stamp r data).
Proof.
  intros Hs Hv. split.
  - unfold has_keys. repeat constructor.
    + now rewrite stamped_status.
    + now rewrite stamped_last_updated.
    + now rewrite stamped_container_name.
    + now rewrite stamped_threshold.
    + now rewrite stamped_monitoring_active.
  - unfold valueless in *. now rewrite stamped_cpu_usage, !stamped_status.
Qed.

Lemma well_formed_reading g stamp r v st :
  well_formed (stamped g stamp r (reading v st)).
Proof.
  apply well_formed_stamped.
  - now rewrite reading_status.
  - left. now rewrite reading_cpu_usage.
Qed.

Lemma well_formed_valued g stamp r v st :
  well_formed (stamped g stamp r (<["cpu_usage" := v]> (<["status" := JStr st]> ∅))).
Proof.
  apply well_formed_stamped.
  - rewrite lookup_insert_ne by discriminate. now rewrite lookup_insert_eq.
  - left. now rewrite lookup_insert_eq.
Qed.

Lemma well_formed_tagged g stamp r k v st :
  k <> "status" ->
  st = "Agent Error" \/ st = "Fatal Error" \/ st = "Stopped" ->
  well_formed (stamped g stamp r (<[k := v]> (<["status" := JStr st]> ∅))).
Proof.
  intros Hk Hst.
  assert (Hs : (<[k := v]> (<["status" := JStr st]> ∅) : gmap string jvalue)
               !! "status" = Some (JStr st)).
  { rewrite lookup_insert_ne by assumption. now rewrite lookup_insert_eq. }
  apply well_formed_stamped.
  - now rewrite Hs.
  - right. unfold valueless. rewrite Hs.
    destruct Hst as [->|[->| ->]]; auto.
Qed.

#[local] Hint Resolve well_formed_reading well_formed_valued : opsbot.

(** Splits a [Forall] over an explicit trace into one goal per event. *)
Ltac each_event :=
  repeat first [ apply List.Forall_nil | apply List.Forall_cons ].

Lemma cycle_front_well_formed g w s :
  Forall well_formed_event (cycle_front g w s).2.
Proof.
  unfold cycle_front.
  destruct (get_cpu_usage g w) as [e|cpu]; cbn [snd].
  - each_event. cbn. auto with opsbot.
  - destruct (Qlt_bool _ cpu); [destruct (Qlt_bool 120 _)|]; cbn [snd].
    + rewrite handle_cpu_spike_run. cbv zeta.
      destruct (restart_succeeds g w); cbn [snd app];
        each_event; cbn [well_formed_event]; auto with opsbot.
    + each_event; cbn [well_formed_event]; auto with opsbot.
    + each_event. cbn [well_formed_event]. auto with opsbot.
Qed.

(** The record of the [except] clause of the loop (line 387) is one of
    those without a value. *)
Remark agent_error_record g w s e :
  exists s' d,
    update_ui_data g w AtAgentError
      (<["error" := JStr e]> (<["status" := JStr "Agent Error"]> ∅)) s
    = (inr tt, s', [Publish d])
    /\ well_formed d
    /\ d !! "cpu_usage" = None.
Proof.
  rewrite update_ui_data_run. eexists. eexists. split; [reflexivity|]. split.
  - apply well_formed_tagged; [discriminate | auto].
  - rewrite stamped_cpu_usage. rewrite !lookup_insert_ne by discriminate.
    apply lookup_empty.
Qed.

(** The records that come with a value are those of a sample; the three
    statuses published without one never occur on them. *)
Lemma withholds_value_reading g stamp r v st :
  sample_phase st -> withholds_value (stamped g stamp r (reading v st)).
Proof.
  intros (Ha & Hf & Hs) Hv. exfalso. unfold valueless in Hv.
  rewrite !stamped_status, !reading_status in Hv.
  destruct Hv as [[= ->]|[[= ->]|[= ->]]]; auto.
Qed.

Lemma withholds_value_valued g stamp r v st :
  sample_phase st ->
  withholds_value
    (stamped g stamp r (<["cpu_usage" := v]> (<["status" := JStr st]> ∅))).
Proof.
  intros (Ha & Hf & Hs) Hv. exfalso. unfold valueless in Hv.
  rewrite !stamped_status in Hv.
  rewrite !lookup_insert_ne, !lookup_insert_eq in Hv by discriminate.
  destruct Hv as [[= ->]|[[= ->]|[= ->]]]; auto.
Qed.

(** A dict built from a status and one other key that is not
    [cpu_usage] has no value, and [update_ui_data] adds none. *)
Lemma withholds_value_tagged g stamp r k v st :
  k <> "cpu_usage" ->
  withholds_value (stamped g stamp r (<[k := v]> (<["status" := JStr st]> ∅))).
Proof.
  intros Hk _. rewrite stamped_cpu_usage.
  rewrite lookup_insert_ne by auto. rewrite lookup_insert_ne by discriminate.
  apply lookup_empty.
Qed.

Ltac literal_phase := repeat split; discriminate.

Lemma cycle_front_withholds_value g w s :
  Forall withholds_value_event (cycle_front g w s).2.
Proof.
  unfold cycle_front.
  destruct (get_cpu_usage g w) as [e|cpu]; cbn [snd].
  - each_event. apply withholds_value_reading. literal_phase.
  - destruct (Qlt_bool _ cpu); [destruct (Qlt_bool 120 _)|]; cbn [snd].
    + rewrite handle_cpu_spike_run. cbv zeta.
      destruct (restart_succeeds g w); cbn [snd app];
        each_event; cbn [withholds_value_event];
        first [ exact I
              | apply withholds_value_reading; literal_phase
              | apply withholds_value_valued; literal_phase ].
    + each_event; apply withholds_value_reading; literal_phase.
    + each_event. apply withholds_value_reading. literal_phase.
Qed.

Lemma exec_main_withholds_value g b ws :
  Forall withholds_value_event (exec_main g b ws).2.
Proof.
  apply exec_main_events.
  - exact I.
  - intros w s _. apply cycle_front_withholds_value.
  - intros r. apply (withholds_value_reading g (b_ctime_init b) r (JFloat 0)
                        "Initializing...").
    literal_phase.
  - intros e r. apply withholds_value_tagged. discriminate.
  - intros r. apply withholds_value_tagged. discriminate.
Qed.

(** C9 (amended): every status record published carries [status],
    [last_updated], [container_name], [threshold] and
    [monitoring_active]; it carries [cpu_usage] too unless its status is
    "Agent Error", "Fatal Error" or "Stopped", and a record with one of
    these three statuses carries no [cpu_usage]. *)
Theorem C9_status_schema
    (g : globals) (b : boot) (ws : list world) (d : gmap string jvalue) :
  In d (statuses (exec_main g b ws).2) ->
  has_keys ["status"; "last_updated"; "container_name"; "threshold";
            "monitoring_active"] d
  /\ (is_Some (d !! "cpu_usage") \/ valueless d)
  /\ (valueless d -> d !! "cpu_usage" = None).
Proof.
  intros Hin. apply list_elem_of_In in Hin.
  apply list_elem_of_omap in Hin as (ev & Hev & Hd).
  destruct ev; try discriminate Hd. injection Hd as ->.
  assert (Hall : Forall well_formed_event (exec_main g b ws).2).
  { apply exec_main_events.
    - exact I.
    - intros w s _. apply cycle_front_well_formed.
    - intros r. apply well_formed_stamped; unfold init_data.
      + rewrite lookup_insert_eq. eauto.
      + left. rewrite lookup_insert_ne by discriminate.
        rewrite lookup_insert_eq. eauto.
    - intros e r. apply well_formed_tagged; [discriminate | auto].
    - intros r. apply well_formed_tagged; [discriminate | auto]. }
  pose proof (exec_main_withholds_value g b ws) as Hno.
  rewrite Forall_forall in Hall. rewrite Forall_forall in Hno.
  destruct (Hall _ Hev) as [Hk Hv].
  split; [exact Hk|]. split; [exact Hv|]. exact (Hno _ Hev).
Qed.

Lemma C9_status_schema_witness :
  let d := stamped Scenario.g0 (b_ctime_stop Scenario.b0) false stop_data in
  In d (statuses (exec_main Scenario.g0 Scenario.b0 [Scenario.interrupted]).2)
  /\ has_keys ["status"; "last_updated"; "container_name"; "threshold";
               "monitoring_active"] d
  /\ (is_Some (d !! "cpu_usage") \/ valueless d)
  /\ (valueless d -> d !! "cpu_usage" = None).
Proof.
  cbv zeta.
  assert (Hin : In (stamped Scenario.g0 (b_ctime_stop Scenario.b0) false stop_data)
                  (statuses (exec_main Scenario.g0 Scenario.b0
                               [Scenario.interrupted]).2)).
  { apply list_elem_of_In. apply last_Some_elem_of. vm_compute. reflexivity. }
  split; [exact Hin|].
  exact (C9_status_schema Scenario.g0 Scenario.b0 [Scenario.interrupted] _ Hin).
Defined.

(** ** The range of published values (C6) *)

Lemma sane_range f v : sane f = Some v -> f = Finite v /\ (0 <= v <= 100)%Q.
Proof.
  destruct f as [q| | |]; cbn [sane]; try discriminate.
  destruct (Qle_bool 0 q) eqn:H0; destruct (Qle_bool q 100) eqn:H1;
    cbn [andb]; try discriminate.
  intros [= <-]. apply Qle_bool_iff in H0. apply Qle_bool_iff in H1. auto.
Qed.

Lemma query_loop_range w qs v :
  query_loop w qs = Some v ->
  (0 <= v <= 100)%Q
  /\ exists q rows, In q qs /\ w_prom w q = PromRows (Some (Finite v) :: rows).
Proof.
  induction qs as [|q qs IH]; cbn [query_loop]; [discriminate|].
  intros H.
  assert (Hrest : query_loop w qs = Some v ->
                  (0 <= v <= 100)%Q
                  /\ exists q' rows, In q' (q :: qs)
                       /\ w_prom w q' = PromRows (Some (Finite v) :: rows)).
  { intros H'. destruct (IH H') as (Hr & q' & rows & Hin & Hq).
    split; [exact Hr|]. exists q', rows. split; [now right | exact Hq]. }
  destruct (w_prom w q) as [|[|[f|] rows]] eqn:Hq; auto.
  destruct (sane f) as [v'|] eqn:Hs; auto.
  injection H as ->. destruct (sane_range _ _ Hs) as [-> Hr].
  split; [exact Hr|]. exists q, rows. split; [now left | exact Hq].
Qed.

Lemma query_loop_discards w qs :
  (forall q f rows, In q qs -> w_prom w q = PromRows (Some f :: rows) ->
                    sane f = None) ->
  query_loop w qs = None.
Proof.
  induction qs as [|q qs IH]; intros H; cbn [query_loop]; [reflexivity|].
  assert (Hrest : query_loop w qs = None)
    by (apply IH; intros q' f rows Hin; apply H; now right).
  destruct (w_prom w q) as [|[|[f|] rows]] eqn:Hq; auto.
  now rewrite (H q f rows (or_introl eq_refl) Hq).
Qed.

Lemma fmod_nonneg x : (0 <= fmod x 30)%Q.
Proof.
  unfold fmod. pose proof (Qfloor_le (x / 30)) as H.
  set (z := inject_Z (Qfloor (x / 30))) in *.
  assert (H2 : (x / 30 == x * (1 # 30))%Q) by (unfold Qdiv; reflexivity).
  rewrite H2 in H. lra.
Qed.

Lemma py_min_spec a b : (py_min a b <= a /\ py_min a b <= b
                         /\ forall c, c <= a -> c <= b -> c <= py_min a b)%Q.
Proof.
  unfold py_min. destruct (Qlt_bool b a) eqn:E.
  - apply Qlt_bool_iff in E. repeat split; auto; lra.
  - apply Qlt_bool_false in E. repeat split; auto; lra.
Qed.

Lemma py_max_spec a b : (a <= py_max a b /\ b <= py_max a b
                         /\ forall c, a <= c -> b <= c -> py_max a b <= c)%Q.
Proof.
  unfold py_max. destruct (Qlt_bool a b) eqn:E.
  - apply Qlt_bool_iff in E. repeat split; auto; lra.
  - apply Qlt_bool_false in E. repeat split; auto; lra.
Qed.

Lemma raw_estimate_range w : fair_random w -> (0 <= raw_estimate w <= 100)%Q.
Proof.
  intros Hf. unfold raw_estimate, uniform. cbv zeta.
  pose proof (fmod_nonneg (w_time w)) as Hm.
  destruct (Hf 0%nat) as [Hr0 Hr1].
  set (x := (15 + fmod (w_time w) 30 + (-5 + (15 - -5) * w_random w 0))%Q).
  destruct (py_min_spec x 95) as (_ & Hle & Hge).
  split; [apply Hge; unfold x; lra | lra].
Qed.

Lemma simulation_range w : fair_random w -> (0 <= simulation w <= 100)%Q.
Proof.
  intros Hf. unfold simulation, uniform. cbv zeta.
  destruct (Qlt_bool (w_random w 1) SPIKE_SIMULATION_CHANCE).
  - destruct (Hf 2%nat). lra.
  - set (y := py_min 95 _).
    assert (Hy : (y <= 95)%Q) by (unfold y; apply py_min_spec).
    destruct (py_max_spec 5 y) as (H5 & _ & Hle).
    split; [lra|]. apply Qle_trans with 95%Q; [apply Hle; lra | lra].
Qed.

Lemma get_cpu_usage_cases g w cpu :
  get_cpu_usage g w = inr cpu ->
  ((0 <= cpu <= 100)%Q
   /\ exists q rows, In q queries
        /\ w_prom w q = PromRows (Some (Finite cpu) :: rows))
  \/ cpu = raw_estimate w
  \/ cpu = simulation w.
Proof.
  unfold get_cpu_usage, prometheus_value, synthetic.
  assert (Hsim : match w_sample_fault w with
                 | Some e => inl e
                 | None => inr (simulation w)
                 end = inr cpu -> cpu = simulation w)
    by (destruct (w_sample_fault w); [discriminate | now intros [= <-]]).
  destruct (prom g); [|auto].
  destruct (query_loop w queries) as [v|] eqn:Hq.
  - intros [= <-]. left. now apply query_loop_range.
  - destruct (w_prom w "node_cpu_seconds_total") as [|[|row rows]]; auto.
    intros [= <-]. auto.
Qed.

Lemma get_cpu_usage_range g w cpu :
  fair_random w -> get_cpu_usage g w = inr cpu -> (0 <= cpu <= 100)%Q.
Proof.
  intros Hf H. destruct (get_cpu_usage_cases _ _ _ H) as [[Hr _]|[->| ->]].
  - exact Hr.
  - now apply raw_estimate_range.
  - now apply simulation_range.
Qed.

Lemma value_ok_stamped g stamp r data :
  (forall v, status_value data = Some v -> (0 <= v <= 100)%Q) ->
  value_ok (Publish (stamped g stamp r data)).
Proof.
  intros H v. unfold status_value. rewrite stamped_cpu_usage. apply H.
Qed.

Lemma value_ok_reading g stamp r q st :
  (0 <= q <= 100)%Q ->
  value_ok (Publish (stamped g stamp r (reading (JFloat q) st))).
Proof.
  intros Hq. apply value_ok_stamped. intros v. unfold status_value.
  rewrite reading_cpu_usage. now intros [= <-].
Qed.

Lemma value_ok_valued g stamp r q st :
  (0 <= q <= 100)%Q ->
  value_ok (Publish (stamped g stamp r
                       (<["cpu_usage" := JFloat q]> (<["status" := JStr st]> ∅)))).
Proof.
  intros Hq. apply value_ok_stamped. intros v. unfold status_value.
  rewrite lookup_insert_eq. now intros [= <-].
Qed.

Lemma value_ok_tagged g stamp r k x st :
  k <> "cpu_usage" ->
  value_ok (Publish (stamped g stamp r (<[k := x]> (<["status" := JStr st]> ∅)))).
Proof.
  intros Hk. apply value_ok_stamped. intros v. unfold status_value.
  rewrite lookup_insert_ne by assumption.
  rewrite lookup_insert_ne by discriminate. now rewrite lookup_empty.
Qed.

Lemma cycle_front_values g w s :
  fair_random w -> Forall value_ok (cycle_front g w s).2.
Proof.
  intros Hf. unfold cycle_front.
  destruct (get_cpu_usage g w) as [e|cpu] eqn:Hget; cbn [snd].
  - each_event. apply value_ok_stamped. intros v. unfold status_value.
    rewrite reading_cpu_usage. intros [= <-].
    change (inject_Z 0) with 0%Q. lra.
  - pose proof (get_cpu_usage_range _ _ _ Hf Hget) as Hr.
    assert (H25 : (0 <= 25 <= 100)%Q) by lra.
    destruct (Qlt_bool _ cpu); [destruct (Qlt_bool 120 _)|]; cbn [snd].
    + rewrite handle_cpu_spike_run. cbv zeta.
      destruct (restart_succeeds g w); cbn [snd app]; each_event;
        try exact I;
        first [ now apply value_ok_reading | now apply value_ok_valued ].
    + each_event; now apply value_ok_reading.
    + each_event. now apply value_ok_reading.
Qed.

(** C6: every metric value in a published status lies in [0, 100].  A
    Prometheus reply is taken only if it passes the sanity check; when
    none does, the value is the fallback (the estimate from raw data or
    the simulation), and both stay within the range. *)
Theorem C6_values_in_range (g : globals) (b : boot) (ws : list world) :
  (forall w, In w ws -> fair_random w) ->
  (forall d v, In d (statuses (exec_main g b ws).2) ->
               status_value d = Some v -> (0 <= v <= 100)%Q)
  /\ (forall w cpu, In w ws -> get_cpu_usage g w = inr cpu ->
        ((0 <= cpu <= 100)%Q
         /\ exists q rows, In q queries
              /\ w_prom w q = PromRows (Some (Finite cpu) :: rows))
        \/ cpu = raw_estimate w
        \/ cpu = simulation w)
  /\ (forall w, In w ws -> prom g = true ->
        (forall q f rows, In q queries ->
           w_prom w q = PromRows (Some f :: rows) -> sane f = None) ->
        get_cpu_usage g w = fallback w)
  /\ (forall w, In w ws ->
        (0 <= raw_estimate w <= 100)%Q /\ (0 <= simulation w <= 100)%Q).
Proof.
  intros Hfair. split; [|split; [|split]].
  - intros d v Hin Hv. apply list_elem_of_In in Hin.
    apply list_elem_of_omap in Hin as (ev & Hev & Hd).
    destruct ev; try discriminate Hd. injection Hd as ->.
    assert (Hall : Forall value_ok (exec_main g b ws).2).
    { apply exec_main_events.
      - exact I.
      - intros w s Hw. apply cycle_front_values. now apply Hfair.
      - intros r. apply value_ok_stamped. intros x. unfold status_value, init_data.
        rewrite lookup_insert_ne by discriminate. rewrite lookup_insert_eq.
        intros [= <-]. lra.
      - intros e r. apply value_ok_tagged. discriminate.
      - intros r. apply value_ok_tagged. discriminate. }
    rewrite Forall_forall in Hall. exact (Hall _ Hev v Hv).
  - intros w cpu _. apply get_cpu_usage_cases.
  - intros w _ Hp Hbad. unfold get_cpu_usage, prometheus_value, fallback.
    rewrite Hp, (query_loop_discards _ _ Hbad).
    destruct (w_prom w "node_cpu_seconds_total") as [|[|row rows]]; reflexivity.
  - intros w Hw. split; [apply raw_estimate_range | apply simulation_range];
      now apply Hfair.
Qed.

Lemma C6_values_in_range_witness :
  fair_random Scenario.overrange
  /\ get_cpu_usage Scenario.g_prom Scenario.overrange
     = inr (simulation Scenario.overrange)
  /\ (0 <= simulation Scenario.overrange <= 100)%Q
  /\ forall d v,
       In d (statuses (exec_main Scenario.g_prom Scenario.b0
                         [Scenario.overrange]).2) ->
       status_value d = Some v -> (0 <= v <= 100)%Q.
Proof.
  assert (Hf : fair_random Scenario.overrange)
    by (intros n; cbn; lra).
  assert (Hall : forall w, In w [Scenario.overrange] -> fair_random w)
    by (intros w [<-|[]]; exact Hf).
  destruct (C6_values_in_range Scenario.g_prom Scenario.b0 [Scenario.overrange] Hall)
    as (Hvalues & _ & Hfall & Hrange).
  split; [exact Hf|]. split; [|split].
  - rewrite (Hfall Scenario.overrange (or_introl eq_refl) eq_refl);
      [reflexivity|].
    intros q f rows Hq.
    cbn in Hq. destruct Hq as [<-|[<-|[<-|[]]]]; intros [= <-]; reflexivity.
  - apply (Hrange Scenario.overrange). now left.
  - exact Hvalues.
Defined.

(** ** The cooldown (C2) *)

Lemma trigger_times_app t1 t2 :
  trigger_times (t1 ++ t2) = trigger_times t1 ++ trigger_times t2.
Proof. apply omap_app. Qed.

Lemma trigger_times_sleeps k : trigger_times (repeat (Sleep 1) k) = [].
Proof. induction k; cbn; auto. Qed.

Lemma cycle_triggers g w s s' tr :
  cycle g w s = (inr tt, s', tr) ->
  (trigger_times tr = [] /\ last_spike_time s' = last_spike_time s)
  \/ (trigger_times tr = [w_now w]
      /\ (last_spike_time s + cooldown_seconds < w_now w)%Q
      /\ last_spike_time s' = w_now w).
Proof.
  intros H. destruct (cycle_run g w s) as (k & s1 & Heq & Has & _).
  rewrite H in Heq. injection Heq as <- ->.
  rewrite trigger_times_app, trigger_times_sleeps, app_nil_r.
  rewrite (proj2 (after_signal_locals _ _ Has)). clear H Has.
  unfold cycle_front.
  destruct (get_cpu_usage g w) as [e|cpu]; cbn [fst snd].
  - left. now rewrite deliver_last_spike_time.
  - destruct (Qlt_bool _ cpu); [destruct (Qlt_bool 120 _) eqn:Hcd|]; cbn [fst snd].
    + right. rewrite handle_cpu_spike_run. cbv zeta.
      apply Qlt_bool_iff in Hcd. rewrite deliver_last_spike_time in Hcd.
      cbn [last_spike_time set_cycle_count] in Hcd. unfold cooldown_seconds.
      destruct (restart_succeeds g w); cbn [fst snd last_spike_time set_last_spike_time];
        (split; [reflexivity|]); (split; [lra | reflexivity]).
    + left. now rewrite !deliver_last_spike_time.
    + left. now rewrite deliver_last_spike_time.
Qed.

Lemma monitoring_loop_spaced g ws : forall s,
  spaced (last_spike_time s) (trigger_times (monitoring_loop g ws s).2).
Proof.
  induction ws as [|w ws IH]; intros s; [exact I|].
  destruct (running (deliver w AtLoop s)) eqn:Hr.
  - destruct (cycle_run g w (deliver w AtLoop s)) as (k & s1 & Heq & _ & _).
    rewrite (monitoring_loop_step _ _ ws _ _ _ Hr Heq).
    specialize (IH s1).
    destruct (monitoring_loop g ws s1) as [[r s2] tr2]. cbn [snd] in *.
    rewrite trigger_times_app.
    destruct (cycle_triggers _ _ _ _ _ Heq) as [[-> Hl]|(-> & Hlt & Hl)];
      rewrite deliver_last_spike_time in *; cbn [app spaced].
    + now rewrite <- Hl.
    + split; [exact Hlt | now rewrite <- Hl].
  - rewrite (monitoring_loop_stop _ _ _ _ Hr). exact I.
Qed.

Lemma spaced_lookup ts : forall last j t,
  spaced last ts -> ts !! j = Some t -> (last + cooldown_seconds < t)%Q.
Proof.
  induction ts as [|t0 ts IH]; intros last j t Hs Hj; [discriminate|].
  destruct Hs as [H0 Hs]. destruct j as [|j].
  - now injection Hj as <-.
  - specialize (IH _ _ _ Hs Hj). unfold cooldown_seconds in *. lra.
Qed.

Lemma spaced_pairwise ts : forall last i j t1 t2,
  spaced last ts -> (i < j)%nat ->
  ts !! i = Some t1 -> ts !! j = Some t2 ->
  (t1 + cooldown_seconds < t2)%Q.
Proof.
  induction ts as [|t0 ts IH]; intros last i j t1 t2 Hs Hij Hi Hj;
    [discriminate|].
  destruct Hs as [H0 Hs]. destruct j as [|j]; [lia|]. destruct i as [|i].
  - injection Hi as <-. exact (spaced_lookup _ _ _ _ Hs Hj).
  - apply (IH t0 i j); auto. lia.
Qed.

Lemma continuous_monitoring_trace g ws s :
  (continuous_monitoring g ws s).2
  = (monitoring_loop g ws (set_last_spike_time 0 (set_cycle_count 0 s))).2.
Proof.
  unfold continuous_monitoring. run.
  destruct (monitoring_loop g ws _) as [[r s'] tr]. reflexivity.
Qed.

(** A breach while the cooldown runs only republishes "Cooldown". *)
Lemma cycle_cooling g w s cpu :
  get_cpu_usage g w = inr cpu ->
  (inject_Z (THRESHOLD g) < cpu)%Q ->
  (w_now w - last_spike_time s <= cooldown_seconds)%Q ->
  exists s' tr d,
    cycle g w s = (inr tt, s', tr)
    /\ Forall (fun ev => incident_call ev = false) tr
    /\ last (statuses tr) = Some d
    /\ d !! "status" = Some (JStr "Cooldown").
Proof.
  intros Hget Hth Hcd.
  destruct (cycle_run g w s) as (k & s' & Heq & _ & _).
  exists s'. eexists. eexists. split; [exact Heq|].
  unfold cycle_front. rewrite Hget.
  apply Qlt_bool_iff in Hth. rewrite Hth.
  rewrite deliver_last_spike_time. cbn [last_spike_time set_cycle_count].
  unfold cooldown_seconds in Hcd. apply Qlt_bool_false in Hcd. rewrite Hcd.
  cbn [snd]. split; [|split].
  - apply Forall_app. split; [each_event; reflexivity|].
    apply no_incident_call_sleeps.
  - rewrite statuses_app, statuses_sleeps, app_nil_r. reflexivity.
  - rewrite stamped_status. apply reading_status.
Qed.

Lemma handling_records_time g w s cpu s' tr :
  handles g w s cpu ->
  cycle g w s = (inr tt, s', tr) ->
  last_spike_time s' = w_now w.
Proof.
  intros Hh H. destruct (cycle_run g w s) as (k & s1 & Heq & Has & _).
  rewrite H in Heq. injection Heq as <- _.
  rewrite (cycle_front_handling _ _ _ _ Hh) in Has. cbv zeta in Has.
  cbn [fst] in Has. now rewrite (proj2 (after_signal_locals _ _ Has)).
Qed.

(** C2: in a run of the loop any two incident-handling sequences start
    more than the cooldown (120 s) apart; and a breach sampled within
    the cooldown of a sequence started at [w_now w1] goes to the
    "Cooldown" branch, which makes no diagnosis, remediation,
    notification or incident-record call. *)
Theorem C2_cooldown (g : globals) (ws : list world) (s : store) :
  (forall i j t1 t2,
      (i < j)%nat ->
      trigger_times (continuous_monitoring g ws s).2 !! i = Some t1 ->
      trigger_times (continuous_monitoring g ws s).2 !! j = Some t2 ->
      (t1 + cooldown_seconds < t2)%Q)
  /\ (forall w1 w2 s0 s1 tr1 cpu1 cpu2,
        handles g w1 s0 cpu1 ->
        cycle g w1 s0 = (inr tt, s1, tr1) ->
        get_cpu_usage g w2 = inr cpu2 ->
        (inject_Z (THRESHOLD g) < cpu2)%Q ->
        (w_now w2 - w_now w1 <= cooldown_seconds)%Q ->
        exists s2 tr2 d,
          cycle g w2 s1 = (inr tt, s2, tr2)
          /\ Forall (fun ev => incident_call ev = false) tr2
          /\ last (statuses tr2) = Some d
          /\ d !! "status" = Some (JStr "Cooldown")).
Proof.
  split.
  - intros i j t1 t2 Hij Hi Hj.
    rewrite continuous_monitoring_trace in Hi, Hj.
    eapply spaced_pairwise; eauto using monitoring_loop_spaced.
  - intros w1 w2 s0 s1 tr1 cpu1 cpu2 Hh Hc Hget Hth Hcd.
    apply (cycle_cooling g w2 s1 cpu2); auto.
    now rewrite (handling_records_time _ _ _ _ _ _ Hh Hc).
Qed.

Lemma C2_cooldown_witness :
  let ws := [Scenario.spike 1000 true; Scenario.spike 1030 true;
             Scenario.spike 1200 true] in
  trigger_times (continuous_monitoring Scenario.g0 ws initial_store).2
  = [1000%Q; 1200%Q]
  /\ (1000 + cooldown_seconds < 1200)%Q
  /\ exists s1 tr1 s2 tr2 d,
       cycle Scenario.g0 (Scenario.spike 1000 true) initial_store = (inr tt, s1, tr1)
       /\ cycle Scenario.g0 (Scenario.spike 1030 true) s1 = (inr tt, s2, tr2)
       /\ Forall (fun ev => incident_call ev = false) tr2
       /\ last (statuses tr2) = Some d
       /\ d !! "status" = Some (JStr "Cooldown").
Proof.
  cbv zeta.
  set (ws := [Scenario.spike 1000 true; Scenario.spike 1030 true;
              Scenario.spike 1200 true]).
  assert (Ht : trigger_times (continuous_monitoring Scenario.g0 ws initial_store).2
               = [1000%Q; 1200%Q]) by (vm_compute; reflexivity).
  destruct (C2_cooldown Scenario.g0 ws initial_store) as [Hpair Hcool].
  split; [exact Ht|]. split.
  - apply (Hpair 0%nat 1%nat); [lia | now rewrite Ht | now rewrite Ht].
  - assert (Hh : handles Scenario.g0 (Scenario.spike 1000 true) initial_store
                   Scenario.spike_value)
      by (repeat split; vm_compute; reflexivity).
    destruct (cycle_run Scenario.g0 (Scenario.spike 1000 true) initial_store)
      as (k & s1 & Heq & _ & _).
    destruct (Hcool (Scenario.spike 1000 true) (Scenario.spike 1030 true)
                initial_store s1 _ Scenario.spike_value Scenario.spike_value
                Hh Heq)
      as (s2 & tr2 & d & H2 & Hno & Hl & Hd);
      [vm_compute; reflexivity | vm_compute; reflexivity
      | vm_compute; discriminate |].
    exists s1. eexists. exists s2, tr2, d.
    split; [exact Heq|]. split; [exact H2|]. auto.
Defined.

(** * Beyond the claims *)

(** ** Sampling *)

Lemma fmod_lt x : (fmod x 30 < 30)%Q.
Proof.
  unfold fmod. pose proof (Qlt_floor (x / 30)) as H.
  rewrite inject_Z_plus in H.
  set (z := inject_Z (Qfloor (x / 30))) in *.
  assert (H2 : (x / 30 == x * (1 # 30))%Q) by (unfold Qdiv; reflexivity).
  rewrite H2 in H. change (inject_Z 1) with 1%Q in H. lra.
Qed.

Lemma raw_estimate_tight w : fair_random w -> (10 <= raw_estimate w <= 60)%Q.
Proof.
  intros Hf. unfold raw_estimate, uniform. cbv zeta.
  pose proof (fmod_nonneg (w_time w)) as Hm0.
  pose proof (fmod_lt (w_time w)) as Hm1.
  destruct (Hf 0%nat) as [Hr0 Hr1].
  set (x := (15 + fmod (w_time w) 30 + (-5 + (15 - -5) * w_random w 0))%Q).
  assert (Hx : (10 <= x <= 60)%Q) by (unfold x; lra).
  destruct (py_min_spec x 95) as (Hle & _ & Hge).
  split; [apply Hge; lra | lra].
Qed.

Lemma simulation_spike w :
  fair_random w ->
  (w_random w 1 < SPIKE_SIMULATION_CHANCE)%Q ->
  (85 <= simulation w <= 95)%Q.
Proof.
  intros Hf Hg. unfold simulation, uniform. cbv zeta.
  apply Qlt_bool_iff in Hg. rewrite Hg. destruct (Hf 2%nat). lra.
Qed.

Lemma simulation_calm w :
  fair_random w -> bounded_sin w ->
  (SPIKE_SIMULATION_CHANCE <= w_random w 1)%Q ->
  (5 <= simulation w <= 47)%Q.
Proof.
  intros Hf Hs Hg. unfold simulation, uniform. cbv zeta.
  apply Qlt_bool_false in Hg. rewrite Hg.
  destruct (Hf 0%nat) as [Hr0 Hr1].
  destruct (Hs (fmod (w_time w) 300 / 50)%Q) as [Hs0 Hs1].
  set (y := (20 + 15 * w_sin w (fmod (w_time w) 300 / 50)
             + (-8 + (12 - -8) * w_random w 0))%Q).
  assert (Hy : (-3 <= y <= 47)%Q) by (unfold y; lra).
  destruct (py_min_spec 95 y) as (_ & Hle & _).
  destruct (py_max_spec 5 (py_min 95 y)) as (H5 & _ & Hmax).
  split; [exact H5|]. apply Hmax; lra.
Qed.

Lemma get_cpu_usage_unusable g w :
  prom g = true -> no_usable_reply w -> get_cpu_usage g w = fallback w.
Proof.
  intros Hp Hbad. unfold get_cpu_usage, prometheus_value, fallback.
  rewrite Hp, (query_loop_discards _ _ Hbad).
  destruct (w_prom w "node_cpu_seconds_total") as [|[|row rows]]; reflexivity.
Qed.

(** A cycle whose sample is at or below the threshold: one "Normal"
    status, no incident call. *)
Lemma cycle_normal g w s cpu :
  get_cpu_usage g w = inr cpu ->
  (cpu <= inject_Z (THRESHOLD g))%Q ->
  exists s' tr,
    cycle g w s = (inr tt, s', tr)
    /\ incident_calls tr = []
    /\ phases tr = ["Normal"]
    /\ last_spike_time s' = last_spike_time s.
Proof.
  intros Hget Hle.
  destruct (cycle_run g w s) as (k & s' & Heq & Has & _).
  exists s'. eexists. split; [exact Heq|].
  rewrite (proj2 (after_signal_locals _ _ Has)). clear Heq Has.
  unfold cycle_front. rewrite Hget.
  apply Qlt_bool_false in Hle. rewrite Hle. cbn [fst snd].
  split; [|split].
  - unfold incident_calls. rewrite List.filter_app. cbn [List.filter incident_call app].
    induction k; cbn [repeat List.filter incident_call]; auto.
  - unfold phases. rewrite statuses_app, statuses_sleeps, app_nil_r.
    cbn [statuses omap list_omap]. rewrite stamped_status, reading_status.
    reflexivity.
  - now rewrite deliver_last_spike_time.
Qed.

Lemma inject_Z_le_const (a b : Z) : (a <= b)%Z -> (inject_Z a <= inject_Z b)%Q.
Proof. intros H. now rewrite Zle_Qle in H. Qed.

Lemma incident_calls_none tr :
  Forall (fun e => incident_call e = false) tr -> incident_calls tr = [].
Proof.
  unfold incident_calls. induction 1 as [|e tr He _ IH]; [reflexivity|].
  cbn [List.filter]. now rewrite He.
Qed.

Lemma in_sleeps e k : In e (repeat (Sleep 1) k) -> e = Sleep 1.
Proof. intros H. now apply repeat_spec in H. Qed.

(** X1: with Prometheus up but answering no CPU query usably, while it
    has raw CPU data, the value is the time-based estimate, which stays
    within [10, 60]; with a threshold of 60 or more such a cycle is
    always "Normal" and starts no incident handling. *)
Theorem X1_raw_estimate_never_spikes (g : globals) (w : world) (s : store) :
  prom g = true ->
  no_usable_reply w ->
  (exists row rows, w_prom w "node_cpu_seconds_total" = PromRows (row :: rows)) ->
  fair_random w ->
  (60 <= THRESHOLD g)%Z ->
  get_cpu_usage g w = inr (raw_estimate w)
  /\ (10 <= raw_estimate w <= 60)%Q
  /\ exists s' tr,
       cycle g w s = (inr tt, s', tr)
       /\ incident_calls tr = []
       /\ phases tr = ["Normal"].
Proof.
  intros Hp Hbad (row & rows & Hraw) Hf Hth.
  assert (Hget : get_cpu_usage g w = inr (raw_estimate w)).
  { rewrite (get_cpu_usage_unusable _ _ Hp Hbad). unfold fallback.
    now rewrite Hraw. }
  pose proof (raw_estimate_tight _ Hf) as Hr.
  split; [exact Hget|]. split; [exact Hr|].
  destruct (cycle_normal g w s _ Hget) as (s' & tr & Hc & Hi & Hph & _).
  - apply inject_Z_le_const in Hth. change (inject_Z 60) with 60%Q in Hth. lra.
  - exists s', tr. auto.
Qed.

Lemma X1_raw_estimate_never_spikes_witness :
  get_cpu_usage Scenario.g_prom raw_only = inr (raw_estimate raw_only)
  /\ (10 <= raw_estimate raw_only <= 60)%Q
  /\ exists s' tr,
       cycle Scenario.g_prom raw_only initial_store = (inr tt, s', tr)
       /\ incident_calls tr = []
       /\ phases tr = ["Normal"].
Proof.
  apply X1_raw_estimate_never_spikes.
  - reflexivity.
  - intros q f rows Hq. cbn in Hq.
    destruct Hq as [<-|[<-|[<-|[]]]]; intros [= <-]; reflexivity.
  - exists None, []. reflexivity.
  - intros n. cbn. lra.
  - cbn. lia.
Defined.

(** X2: in simulation mode (no Prometheus) with a threshold from 47 to
    84, as the default 80, a spike is detected exactly when the
    simulated-spike draw falls below [SPIKE_SIMULATION_CHANCE]: the
    simulated spike is at least 85 and the ordinary simulated load at
    most 47. *)
Theorem X2_simulated_spike_iff_gate (g : globals) (w : world) (s : store) :
  prom g = false ->
  w_sample_fault w = None ->
  fair_random w ->
  bounded_sin w ->
  (47 <= THRESHOLD g < 85)%Z ->
  exists d,
    monitor_cpu_once g w s
    = (inr (Qlt_bool (w_random w 1) SPIKE_SIMULATION_CHANCE, simulation w),
       deliver w AtSample s, [Publish d])
    /\ status_value d = Some (simulation w).
Proof.
  intros Hp Hnf Hf Hs [Hlo Hhi].
  assert (Hget : get_cpu_usage g w = inr (simulation w)).
  { unfold get_cpu_usage, synthetic. now rewrite Hp, Hnf. }
  rewrite monitor_cpu_once_run, Hget. cbv zeta.
  apply inject_Z_le_const in Hlo. change (inject_Z 47) with 47%Q in Hlo.
  assert (Hhi' : (inject_Z (THRESHOLD g) <= 84)%Q).
  { change 84%Q with (inject_Z 84). apply inject_Z_le_const. lia. }
  assert (Hv : forall st r, status_value
             (stamped g (w_ctime w AtSample) r (reading (JFloat (simulation w)) st))
             = Some (simulation w)).
  { intros. unfold status_value. now rewrite stamped_cpu_usage, reading_cpu_usage. }
  destruct (Qlt_bool (w_random w 1) SPIKE_SIMULATION_CHANCE) eqn:Hg.
  - apply Qlt_bool_iff in Hg. pose proof (simulation_spike _ Hf Hg) as Hr.
    assert (Hlt : Qlt_bool (inject_Z (THRESHOLD g)) (simulation w) = true)
      by (apply Qlt_bool_iff; lra).
    rewrite Hlt. eexists. split; [reflexivity | apply Hv].
  - apply Qlt_bool_false in Hg. pose proof (simulation_calm _ Hf Hs Hg) as Hr.
    assert (Hlt : Qlt_bool (inject_Z (THRESHOLD g)) (simulation w) = false)
      by (apply Qlt_bool_false; lra).
    rewrite Hlt. eexists. split; [reflexivity | apply Hv].
Qed.

Lemma X2_simulated_spike_iff_gate_witness :
  exists d,
    monitor_cpu_once Scenario.g0 (Scenario.spike 1000 true) initial_store
    = (inr (true, simulation (Scenario.spike 1000 true)),
       deliver (Scenario.spike 1000 true) AtSample initial_store, [Publish d])
    /\ status_value d = Some (simulation (Scenario.spike 1000 true)).
Proof.
  apply (X2_simulated_spike_iff_gate Scenario.g0 (Scenario.spike 1000 true)).
  - reflexivity.
  - reflexivity.
  - intros n. cbn. lra.
  - intros x. cbn. lra.
  - cbn. lia.
Defined.

Lemma cycle_front_quiet g w s :
  fair_random w ->
  (100 <= THRESHOLD g)%Z ->
  Forall (fun e => incident_call e = false) (cycle_front g w s).2.
Proof.
  intros Hf Hth. unfold cycle_front.
  destruct (get_cpu_usage g w) as [e|cpu] eqn:Hget; cbn [snd].
  - each_event. reflexivity.
  - pose proof (get_cpu_usage_range _ _ _ Hf Hget) as Hr.
    apply inject_Z_le_const in Hth. change (inject_Z 100) with 100%Q in Hth.
    assert (Hlt : Qlt_bool (inject_Z (THRESHOLD g)) cpu = false)
      by (apply Qlt_bool_false; lra).
    rewrite Hlt. cbn [snd]. each_event. reflexivity.
Qed.

(** X3: with a threshold of 100 or more no run ever starts an incident
    handling: every accepted sample is at most 100 and the comparison
    with the threshold is strict. *)
Theorem X3_full_scale_threshold_silences
    (g : globals) (b : boot) (ws : list world) :
  (100 <= THRESHOLD g)%Z ->
  (forall w, In w ws -> fair_random w) ->
  incident_calls (exec_main g b ws).2 = []
  /\ records (exec_main g b ws).2 = [].
Proof.
  intros Hth Hf.
  assert (Hall : Forall (fun e => incident_call e = false) (exec_main g b ws).2).
  { apply exec_main_events; try reflexivity.
    intros w s Hw. apply cycle_front_quiet; auto. }
  split; [now apply incident_calls_none|].
  unfold records. induction Hall as [|e tr He _ IH]; [reflexivity|].
  destruct e; try discriminate He; exact IH.
Qed.

Lemma X3_full_scale_threshold_silences_witness :
  incident_calls (exec_main g_full Scenario.b0
                    [Scenario.spike 1000 true; Scenario.interrupted]).2 = []
  /\ records (exec_main g_full Scenario.b0
                [Scenario.spike 1000 true; Scenario.interrupted]).2 = [].
Proof.
  apply X3_full_scale_threshold_silences.
  - cbn. lia.
  - intros w [<-|[<-|[]]]; intros n; cbn; lra.
Defined.

(** ** The handling sequence *)

Lemma incident_calls_app t1 t2 :
  incident_calls (t1 ++ t2) = incident_calls t1 ++ incident_calls t2.
Proof. apply List.filter_app. Qed.

Lemma incident_calls_sleeps k : incident_calls (repeat (Sleep 1) k) = [].
Proof. apply incident_calls_none, no_incident_call_sleeps. Qed.

Lemma phases_app t1 t2 : phases (t1 ++ t2) = phases t1 ++ phases t2.
Proof. unfold phases. now rewrite statuses_app, omap_app. Qed.

Lemma phases_sleeps k : phases (repeat (Sleep 1) k) = [].
Proof. unfold phases. now rewrite statuses_sleeps. Qed.

Lemma phases_publish d st tr :
  d !! "status" = Some (JStr st) -> phases (Publish d :: tr) = st :: phases tr.
Proof. intros H. unfold phases. cbn [statuses omap list_omap]. now rewrite H. Qed.

Lemma phases_reading g stamp r v st tr :
  phases (Publish (stamped g stamp r (reading v st)) :: tr) = st :: phases tr.
Proof. apply phases_publish. now rewrite stamped_status, reading_status. Qed.

Lemma phases_valued g stamp r v st tr :
  phases (Publish (stamped g stamp r
                     (<["cpu_usage" := v]> (<["status" := JStr st]> ∅))) :: tr)
  = st :: phases tr.
Proof.
  apply phases_publish. rewrite stamped_status.
  rewrite lookup_insert_ne by discriminate. now rewrite lookup_insert_eq.
Qed.

Lemma phases_tagged g stamp r k v st tr :
  k <> "status" ->
  phases (Publish (stamped g stamp r
                     (<[k := v]> (<["status" := JStr st]> ∅))) :: tr)
  = st :: phases tr.
Proof.
  intros Hk. apply phases_publish. rewrite stamped_status.
  rewrite lookup_insert_ne by assumption. now rewrite lookup_insert_eq.
Qed.

Lemma handle_cpu_spike_calls g w cpu s :
  incident_calls (handle_cpu_spike g w cpu s).2
  = [ CallDiagnose; CallRemediate;
      Notify (diagnosed_cause g w) (action_taken g w);
      RecordIncident (diagnosed_cause g w) (action_taken g w) cpu ].
Proof.
  rewrite handle_cpu_spike_run. cbv zeta. unfold action_taken.
  destruct (restart_succeeds g w); reflexivity.
Qed.

Lemma handle_cpu_spike_phases g w cpu s :
  phases (handle_cpu_spike g w cpu s).2
  = ["Analyzing..."; "Remediating..."; final_phase g w].
Proof.
  rewrite handle_cpu_spike_run. cbv zeta. unfold final_phase.
  destruct (restart_succeeds g w); cbn [snd app];
    rewrite phases_reading; change (phases (CallDiagnose :: ?t)) with (phases t);
    rewrite phases_reading.
  - change (phases (CallRemediate :: Sleep 5 :: ?t)) with (phases t).
    rewrite phases_valued. reflexivity.
  - change (phases (CallRemediate :: Notify ?c ?a :: RecordIncident ?c' ?a' ?v :: ?t))
      with (phases t).
    rewrite phases_valued. reflexivity.
Qed.

(** A cycle that handles a spike, as a whole. *)
Lemma cycle_handling g w s cpu :
  handles g w s cpu ->
  exists s' k,
    cycle g w s
    = (inr tt, s',
       (Publish (stamped g (w_ctime w AtSample)
                   (running (deliver w AtSample (set_cycle_count (S (cycle_count s)) s)))
                   (reading (JFloat cpu) "Spike Detected"))
          :: HandleSpike (w_now w) cpu
          :: (handle_cpu_spike g w cpu
                (deliver w AtSample (set_cycle_count (S (cycle_count s)) s))).2
          ++ [SetLastSpike (w_now w)])
       ++ repeat (Sleep 1) k)
    /\ last_spike_time s' = w_now w.
Proof.
  intros Hh. destruct (cycle_run g w s) as (k & s' & Heq & Has & _).
  rewrite (cycle_front_handling _ _ _ _ Hh) in Heq, Has.
  cbv zeta in Heq, Has. cbn [fst snd] in Heq, Has.
  exists s', k. split; [exact Heq|].
  now rewrite (proj2 (after_signal_locals _ _ Has)).
Qed.

(** X4: the calls of a cycle that handles a spike are, in this order,
    the diagnosis, the remediation, the notification and the incident
    record, once each; notification and record carry the same cause and
    action, and the record carries the sampled value that was detected. *)
Theorem X4_handling_call_order (g : globals) (w : world) (s : store) (cpu : Q) :
  handles g w s cpu ->
  incident_calls (cycle g w s).2
  = [ HandleSpike (w_now w) cpu; CallDiagnose; CallRemediate;
      Notify (diagnosed_cause g w) (action_taken g w);
      RecordIncident (diagnosed_cause g w) (action_taken g w) cpu ].
Proof.
  intros Hh. destruct (cycle_handling _ _ _ _ Hh) as (s' & k & Heq & _).
  rewrite Heq. cbn [snd].
  rewrite incident_calls_app, incident_calls_sleeps, app_nil_r.
  change (incident_calls (Publish ?d :: HandleSpike ?t ?c :: ?tr))
    with (HandleSpike t c :: incident_calls tr).
  rewrite incident_calls_app, handle_cpu_spike_calls. reflexivity.
Qed.

Lemma X4_handling_call_order_witness :
  incident_calls (cycle Scenario.g0 (Scenario.spike 1000 false) initial_store).2
  = [ HandleSpike 1000 Scenario.spike_value; CallDiagnose; CallRemediate;
      Notify (diagnosed_cause Scenario.g0 (Scenario.spike 1000 false)) failure_action;
      RecordIncident (diagnosed_cause Scenario.g0 (Scenario.spike 1000 false))
        failure_action Scenario.spike_value ].
Proof.
  apply (X4_handling_call_order Scenario.g0 (Scenario.spike 1000 false)).
  repeat split; vm_compute; reflexivity.
Defined.

(** X5: the statuses of a cycle that handles a spike go through the
    phases "Spike Detected", "Analyzing...", "Remediating..." and then
    "Remediation Complete" or "Intervention Needed", by the outcome of
    the restart; no other status is published in the cycle. *)
Theorem X5_handling_phase_order (g : globals) (w : world) (s : store) (cpu : Q) :
  handles g w s cpu ->
  phases (cycle g w s).2
  = ["Spike Detected"; "Analyzing..."; "Remediating..."; final_phase g w].
Proof.
  intros Hh. destruct (cycle_handling _ _ _ _ Hh) as (s' & k & Heq & _).
  rewrite Heq. cbn [snd].
  rewrite phases_app, phases_sleeps, app_nil_r, phases_reading.
  change (phases (HandleSpike ?t ?c :: ?tr)) with (phases tr).
  rewrite phases_app, handle_cpu_spike_phases. reflexivity.
Qed.

Lemma X5_handling_phase_order_witness :
  phases (cycle Scenario.g0 (Scenario.spike 1000 true) initial_store).2
  = ["Spike Detected"; "Analyzing..."; "Remediating..."; "Remediation Complete"].
Proof.
  apply (X5_handling_phase_order Scenario.g0 (Scenario.spike 1000 true)
           initial_store Scenario.spike_value).
  repeat split; vm_compute; reflexivity.
Defined.

(** A cycle that does not take the handling branch makes no incident
    call and leaves [last_spike_time] alone. *)
Lemma cycle_not_handling g w s :
  ~ (exists cpu, handles g w s cpu) ->
  incident_calls (cycle g w s).2 = []
  /\ last_spike_time (cycle g w s).1.2 = last_spike_time s.
Proof.
  intros Hno. destruct (cycle_run g w s) as (k & s' & Heq & Has & _).
  rewrite Heq. cbn [fst snd].
  rewrite incident_calls_app, incident_calls_sleeps, app_nil_r.
  rewrite (proj2 (after_signal_locals _ _ Has)). clear Heq Has.
  unfold cycle_front.
  destruct (get_cpu_usage g w) as [e|cpu] eqn:Hget; cbn [fst snd].
  - split; [reflexivity | now rewrite deliver_last_spike_time].
  - destruct (Qlt_bool _ cpu) eqn:Hth;
      [destruct (Qlt_bool 120 _) eqn:Hcd|]; cbn [fst snd].
    + exfalso. apply Hno. exists cpu. repeat split; auto.
      * now apply Qlt_bool_iff.
      * apply Qlt_bool_iff in Hcd. rewrite deliver_last_spike_time in Hcd.
        exact Hcd.
    + split; [reflexivity | now rewrite !deliver_last_spike_time].
    + split; [reflexivity | now rewrite deliver_last_spike_time].
Qed.

(** X6: a cycle starts an incident handling exactly when the sample
    succeeds, is strictly above the threshold and more than 120 s have
    passed since the last start; then [last_spike_time] becomes the
    time read in this cycle.  In every other cycle (sampling failure,
    value at or below the threshold, cooldown running) no incident call
    is made and [last_spike_time] keeps its value, so breaches during
    the cooldown do not extend it. *)
Theorem X6_handling_decision (g : globals) (w : world) (s : store) :
  ((exists cpu, handles g w s cpu)
   /\ In CallDiagnose (cycle g w s).2
   /\ last_spike_time (cycle g w s).1.2 = w_now w)
  \/ (~ (exists cpu, handles g w s cpu)
      /\ incident_calls (cycle g w s).2 = []
      /\ last_spike_time (cycle g w s).1.2 = last_spike_time s).
Proof.
  destruct (get_cpu_usage g w) as [e|cpu] eqn:Hget.
  - right. assert (Hno : ~ (exists cpu, handles g w s cpu)).
    { intros (cpu & Hg & _). congruence. }
    split; [exact Hno | now apply cycle_not_handling].
  - destruct (Qlt_bool (inject_Z (THRESHOLD g)) cpu) eqn:Hth.
    + destruct (Qlt_bool cooldown_seconds (w_now w - last_spike_time s)) eqn:Hcd.
      * left. assert (Hh : handles g w s cpu).
        { repeat split; auto; now apply Qlt_bool_iff. }
        split; [now exists cpu|].
        destruct (cycle_handling _ _ _ _ Hh) as (s' & k & Heq & Hl).
        rewrite Heq. cbn [fst snd]. split; [|exact Hl].
        rewrite handle_cpu_spike_run. cbv zeta.
        destruct (restart_succeeds g w); cbn [snd app In]; auto.
      * right. assert (Hno : ~ (exists cpu, handles g w s cpu)).
        { intros (cpu' & Hg & _ & Hc). apply Qlt_bool_iff in Hc. congruence. }
        split; [exact Hno | now apply cycle_not_handling].
    + right. assert (Hno : ~ (exists cpu, handles g w s cpu)).
      { intros (cpu' & Hg & Ht & _). apply Qlt_bool_iff in Ht.
        rewrite Hget in Hg. injection Hg as <-. congruence. }
      split; [exact Hno | now apply cycle_not_handling].
Qed.

(** ** The scheduler *)

Lemma deliver_elsewhere w p s : w_signal w <> Some p -> deliver w p s = s.
Proof. intros H. unfold deliver. now case_decide. Qed.

Lemma deliver_here w p s :
  w_signal w = Some p -> deliver w p s = set_running false s.
Proof. intros H. unfold deliver. now case_decide. Qed.

Lemma sleep_loop_quiet w n : forall j s,
  (forall i, w_signal w <> Some (AtSleep i)) ->
  running s = true ->
  sleep_loop w j n s = (inr tt, s, repeat (Sleep 1) n).
Proof.
  induction n as [|n IH]; intros j s Hsig Hr; [reflexivity|].
  cbn [sleep_loop]. run. rewrite (deliver_elsewhere _ _ _ (Hsig j)), Hr.
  now rewrite (IH (S j) s Hsig Hr).
Qed.

Lemma sleep_loop_signal w n : forall j s i,
  w_signal w = Some (AtSleep i) ->
  running s = true ->
  (j <= i < j + n)%nat ->
  sleep_loop w j n s = (inr tt, set_running false s, repeat (Sleep 1) (i - j)).
Proof.
  induction n as [|n IH]; intros j s i Hsig Hr Hi; [lia|].
  cbn [sleep_loop]. run.
  destruct (decide (i = j)) as [->|Hne].
  - rewrite (deliver_here _ _ _ Hsig). cbn [running set_running].
    now rewrite Nat.sub_diag.
  - rewrite (deliver_elsewhere w (AtSleep j) s) by (rewrite Hsig; congruence).
    rewrite Hr, (IH (S j) s i Hsig Hr) by lia.
    replace (i - j)%nat with (S (i - S j)) by lia. reflexivity.
Qed.

(** A cycle is its front followed by the sleep loop. *)
Lemma cycle_split g w s :
  cycle g w s =
    (inr tt,
     (sleep_loop w 0 MONITORING_INTERVAL (cycle_front g w s).1).1.2,
     (cycle_front g w s).2
       ++ (sleep_loop w 0 MONITORING_INTERVAL (cycle_front g w s).1).2).
Proof.
  destruct (sleep_loop_run w MONITORING_INTERVAL 0 (cycle_front g w s).1)
    as (k & s' & Heq & _ & _).
  rewrite Heq. cbn [fst snd]. revert Heq.
  unfold cycle, cycle_body, cycle_front. run_keeping_app.
  rewrite monitor_cpu_once_run. cbv beta iota zeta.
  destruct (get_cpu_usage g w) as [e|cpu]; cbn [fst snd].
  - intros ->. reflexivity.
  - destruct (Qlt_bool (inject_Z (THRESHOLD g)) cpu); cbn [fst snd].
    + destruct (Qlt_bool 120 _).
      * rewrite handle_cpu_spike_run. cbv beta iota zeta.
        destruct (restart_succeeds g w); cbn [fst snd]; intros ->;
          cbn [app]; rewrite <- ?app_assoc; cbn [app]; reflexivity.
      * cbv zeta. cbn [fst snd]. intros ->. reflexivity.
    + intros ->. reflexivity.
Qed.

(** Signals that do not fall on a checkpoint before the sleep loop
    leave [running] as it is when the loop is reached. *)
Lemma cycle_front_running g w s :
  (forall p, (forall i, p <> AtSleep i) -> w_signal w <> Some p) ->
  running (cycle_front g w s).1 = running s.
Proof.
  intros Hsig.
  assert (Hd : forall p st, (forall i, p <> AtSleep i) -> deliver w p st = st)
    by (intros p st Hp; apply deliver_elsewhere, Hsig, Hp).
  unfold cycle_front.
  destruct (get_cpu_usage g w) as [e|cpu]; cbn [fst].
  - now rewrite Hd by discriminate.
  - destruct (Qlt_bool _ cpu); [destruct (Qlt_bool 120 _)|]; cbn [fst].
    + rewrite handle_cpu_spike_run. cbv zeta.
      destruct (restart_succeeds g w); cbn [fst];
        rewrite !Hd by discriminate; reflexivity.
    + now rewrite !Hd by discriminate.
    + now rewrite Hd by discriminate.
Qed.

Lemma sleep_rounds_app t1 t2 :
  sleep_rounds (t1 ++ t2) = (sleep_rounds t1 + sleep_rounds t2)%nat.
Proof. unfold sleep_rounds. now rewrite List.filter_app, length_app. Qed.

Lemma sleep_rounds_sleeps k : sleep_rounds (repeat (Sleep 1) k) = k.
Proof.
  unfold sleep_rounds. induction k; cbn [repeat List.filter length]; auto.
Qed.

Lemma sleep_rounds_front g w s : sleep_rounds (cycle_front g w s).2 = 0%nat.
Proof.
  unfold cycle_front.
  destruct (get_cpu_usage g w) as [e|cpu]; cbn [snd]; [reflexivity|].
  destruct (Qlt_bool _ cpu); [destruct (Qlt_bool 120 _)|]; cbn [snd];
    try reflexivity.
  rewrite handle_cpu_spike_run. cbv zeta.
  destruct (restart_succeeds g w); reflexivity.
Qed.

Lemma monitoring_loop_stopped g ws s :
  running s = false -> monitoring_loop g ws s = (inr true, s, []).
Proof.
  intros Hr. destruct ws as [|w ws].
  - rewrite monitoring_loop_nil, Hr. reflexivity.
  - assert (Hd : deliver w AtLoop s = s).
    { unfold deliver. case_decide; [|reflexivity].
      destruct s; cbn in *; now subst. }
    rewrite monitoring_loop_stop; rewrite Hd; auto.
Qed.

(** X7: a shutdown signal that arrives during the [i]-th second of the
    sleep between two cycles ends the sleep after [i] rounds; the loop
    is then left without another cycle being started. *)
Theorem X7_shutdown_during_sleep
    (g : globals) (w : world) (ws : list world) (s : store) (i : nat) :
  w_signal w = Some (AtSleep i) ->
  (i < MONITORING_INTERVAL)%nat ->
  running s = true ->
  exists s' tr,
    cycle g w s = (inr tt, s', tr)
    /\ monitoring_loop g (w :: ws) s = (inr true, s', tr)
    /\ sleep_rounds tr = i
    /\ running s' = false
    /\ cycle_count s' = S (cycle_count s).
Proof.
  intros Hsig Hi Hr.
  assert (Hfr : running (cycle_front g w s).1 = true).
  { rewrite cycle_front_running; [exact Hr|].
    intros p Hp. rewrite Hsig. intros [= <-]. now apply (Hp i). }
  pose proof (cycle_split g w s) as Hc.
  rewrite (sleep_loop_signal w MONITORING_INTERVAL 0 _ i Hsig Hfr) in Hc by lia.
  rewrite Nat.sub_0_r in Hc.
  exists (set_running false (cycle_front g w s).1).
  exists ((cycle_front g w s).2 ++ repeat (Sleep 1) i).
  split; [exact Hc|]. split; [|split; [|split]].
  - assert (Hd : deliver w AtLoop s = s)
      by (apply deliver_elsewhere; rewrite Hsig; discriminate).
    assert (Hr' : running (deliver w AtLoop s) = true) by (now rewrite Hd).
    assert (Hc' : cycle g w (deliver w AtLoop s)
                  = (inr tt, set_running false (cycle_front g w s).1,
                     (cycle_front g w s).2 ++ repeat (Sleep 1) i))
      by (rewrite Hd; exact Hc).
    rewrite (monitoring_loop_step _ _ ws _ _ _ Hr' Hc').
    rewrite monitoring_loop_stopped by reflexivity.
    now rewrite app_nil_r.
  - now rewrite sleep_rounds_app, sleep_rounds_front, sleep_rounds_sleeps.
  - reflexivity.
  - cbn [cycle_count set_running]. apply cycle_front_count.
Qed.

Lemma X7_shutdown_during_sleep_witness :
  exists s' tr,
    cycle Scenario.g0 Scenario.interrupted initial_store = (inr tt, s', tr)
    /\ monitoring_loop Scenario.g0 [Scenario.interrupted; Scenario.calm] initial_store
       = (inr true, s', tr)
    /\ sleep_rounds tr = 3%nat
    /\ running s' = false
    /\ cycle_count s' = S (cycle_count initial_store).
Proof.
  apply (X7_shutdown_during_sleep Scenario.g0 Scenario.interrupted
           [Scenario.calm] initial_store 3).
  - reflexivity.
  - unfold MONITORING_INTERVAL. lia.
  - reflexivity.
Defined.

Lemma cycle_unsignalled g w s :
  w_signal w = None ->
  running s = true ->
  exists s' tr,
    cycle g w s = (inr tt, s', tr)
    /\ running s' = true
    /\ cycle_count s' = S (cycle_count s)
    /\ sleep_rounds tr = MONITORING_INTERVAL.
Proof.
  intros Hsig Hr.
  assert (Hfr : running (cycle_front g w s).1 = true).
  { rewrite cycle_front_running; [exact Hr|]. intros p _. now rewrite Hsig. }
  pose proof (cycle_split g w s) as Hc.
  rewrite (sleep_loop_quiet w MONITORING_INTERVAL 0 _) in Hc;
    [| intros i; now rewrite Hsig | exact Hfr].
  cbn [fst snd] in Hc.
  exists (cycle_front g w s).1. eexists. split; [exact Hc|].
  split; [exact Hfr|]. split; [apply cycle_front_count|].
  now rewrite sleep_rounds_app, sleep_rounds_front, sleep_rounds_sleeps.
Qed.

(** X8: while no signal arrives the loop does not end, whatever the
    collaborators do: every world is consumed by one cycle, each cycle
    sleeps its full 30 rounds, and [running] is still set at the end. *)
Theorem X8_loop_runs_until_signalled (g : globals) (ws : list world) (s : store) :
  (forall w, In w ws -> w_signal w = None) ->
  running s = true ->
  exists s' tr,
    monitoring_loop g ws s = (inr false, s', tr)
    /\ running s' = true
    /\ cycle_count s' = (cycle_count s + length ws)%nat
    /\ sleep_rounds tr = (MONITORING_INTERVAL * length ws)%nat.
Proof.
  revert s. induction ws as [|w ws IH]; intros s Hsig Hr.
  - exists s, []. rewrite monitoring_loop_nil, Hr. cbn [length].
    rewrite Nat.add_0_r, Nat.mul_0_r. auto.
  - assert (Hw : w_signal w = None) by (apply Hsig; now left).
    destruct (cycle_unsignalled g w s Hw Hr) as (s1 & tr1 & Hc & Hr1 & Hn1 & Hsl1).
    destruct (IH s1 (fun w' Hin => Hsig w' (or_intror Hin)) Hr1)
      as (s' & tr' & Hl & Hr' & Hn' & Hsl').
    exists s', (tr1 ++ tr').
    assert (Hd : deliver w AtLoop s = s) by (now apply deliver_no_signal).
    assert (Hrd : running (deliver w AtLoop s) = true) by (now rewrite Hd).
    rewrite <- Hd in Hc.
    rewrite (monitoring_loop_step _ _ ws _ _ _ Hrd Hc), Hl.
    split; [reflexivity|]. split; [exact Hr'|]. split.
    + rewrite Hn', Hn1. cbn [length]. lia.
    + rewrite sleep_rounds_app, Hsl1, Hsl'. cbn [length]. lia.
Qed.

Lemma X8_loop_runs_until_signalled_witness :
  exists s' tr,
    monitoring_loop Scenario.g0
      [Scenario.calm; Scenario.faulty; Scenario.spike 1000 false] initial_store
    = (inr false, s', tr)
    /\ running s' = true
    /\ cycle_count s' = 3%nat
    /\ sleep_rounds tr = 90%nat.
Proof.
  apply (X8_loop_runs_until_signalled Scenario.g0
           [Scenario.calm; Scenario.faulty; Scenario.spike 1000 false]
           initial_store).
  - intros w [<-|[<-|[<-|[]]]]; reflexivity.
  - reflexivity.
Defined.

(** X9: every cycle, in every world, raises nothing and begins by
    publishing the status of its sample, whose phase is "Normal",
    "Spike Detected" or "Monitoring Error". *)
Theorem X9_every_cycle_reports (g : globals) (w : world) (s : store) :
  exists s' d tr,
    cycle g w s = (inr tt, s', Publish d :: tr)
    /\ d !! "last_updated" = Some (JStr (w_ctime w AtSample))
    /\ (d !! "status" = Some (JStr "Normal")
        \/ d !! "status" = Some (JStr "Spike Detected")
        \/ d !! "status" = Some (JStr "Monitoring Error")).
Proof.
  destruct (cycle_run g w s) as (k & s' & Heq & _ & _).
  exists s'. revert Heq. unfold cycle_front.
  destruct (get_cpu_usage g w) as [e|cpu]; cbn [snd].
  - intros Heq. eexists. eexists. split; [exact Heq|].
    rewrite stamped_last_updated, stamped_status, reading_status. auto.
  - destruct (Qlt_bool _ cpu); [destruct (Qlt_bool 120 _)|]; cbn [snd].
    + destruct (handle_cpu_spike g w cpu _) as [[r s2] t2].
      intros Heq. eexists. eexists. split; [exact Heq|].
      rewrite stamped_last_updated, stamped_status, reading_status. auto.
    + intros Heq. eexists. eexists. split; [exact Heq|].
      rewrite stamped_last_updated, stamped_status, reading_status. auto.
    + intros Heq. eexists. eexists. split; [exact Heq|].
      rewrite stamped_last_updated, stamped_status, reading_status. auto.
Qed.

(** ** Whole runs, continued *)

Lemma notifications_app t1 t2 :
  notifications (t1 ++ t2) = notifications t1 ++ notifications t2.
Proof. apply omap_app. Qed.

Lemma balanced_nil : balanced [].
Proof. split; reflexivity. Qed.

Lemma balanced_app t1 t2 : balanced t1 -> balanced t2 -> balanced (t1 ++ t2).
Proof.
  intros [H1 L1] [H2 L2]. split.
  - now rewrite records_app, notifications_app, map_app, H1, H2.
  - rewrite records_app, trigger_times_app, !length_app. lia.
Qed.

Lemma balanced_publish d tr : balanced tr -> balanced (Publish d :: tr).
Proof. intros H. exact H. Qed.

Lemma balanced_sleeps k : balanced (repeat (Sleep 1) k).
Proof.
  split; now rewrite ?records_sleeps, ?notifications_sleeps, ?trigger_times_sleeps.
Qed.

Lemma cycle_front_balanced g w s : balanced (cycle_front g w s).2.
Proof.
  unfold cycle_front.
  destruct (get_cpu_usage g w) as [e|cpu]; cbn [snd]; [split; reflexivity|].
  destruct (Qlt_bool _ cpu); [destruct (Qlt_bool 120 _)|]; cbn [snd];
    try (split; reflexivity).
  rewrite handle_cpu_spike_run. cbv zeta.
  destruct (restart_succeeds g w); split; reflexivity.
Qed.

Lemma monitoring_loop_balanced g ws : forall s,
  balanced (monitoring_loop g ws s).2.
Proof.
  induction ws as [|w ws IH]; intros s; [apply balanced_nil|].
  destruct (running (deliver w AtLoop s)) eqn:Hr.
  - destruct (cycle_run g w (deliver w AtLoop s)) as (k & s1 & Heq & _ & _).
    rewrite (monitoring_loop_step _ _ ws _ _ _ Hr Heq).
    specialize (IH s1).
    destruct (monitoring_loop g ws s1) as [[r s2] tr2]. cbn [snd] in *.
    repeat apply balanced_app; auto using cycle_front_balanced, balanced_sleeps.
  - rewrite (monitoring_loop_stop _ _ _ _ Hr). apply balanced_nil.
Qed.

Lemma exec_main_balanced g b ws : balanced (exec_main g b ws).2.
Proof.
  rewrite exec_main_run. cbv zeta.
  destruct (b_makedirs b) as [e|]; [split; reflexivity|].
  pose proof (monitoring_loop_balanced g ws
                (set_last_spike_time 0 (set_cycle_count 0 (entry_store b))))
    as Hloop.
  destruct (monitoring_loop g ws _) as [[[e|[|]] s1] t]; cbn [snd] in Hloop |- *;
    (apply balanced_app; [apply balanced_publish, Hloop | split; reflexivity]).
Qed.

(** X10: over a whole run the incident records and the notifications
    correspond one to one, in order and with the same cause and action,
    and there are as many records as handling sequences started: a
    sequence that starts always reaches its notification and its
    record, and neither is made outside a sequence. *)
Theorem X10_records_match_notifications
    (g : globals) (b : boot) (ws : list world) :
  map fst (records (exec_main g b ws).2) = notifications (exec_main g b ws).2
  /\ length (records (exec_main g b ws).2)
     = length (trigger_times (exec_main g b ws).2).
Proof. exact (exec_main_balanced g b ws). Qed.

(** X11: when [os.makedirs] fails at start-up no monitoring cycle runs:
    the statuses are "Initializing...", "Fatal Error" and "Stopped", and
    the process ends.  The [monitoring_active] field of the last record
    is the value of [running], so without a signal it reads true on a
    stopped agent. *)
Theorem X11_fatal_startup (g : globals) (b : boot) (ws : list world) (e : string) :
  b_makedirs b = Some e ->
  exists s tr d,
    exec_main g b ws = (inr true, s, tr)
    /\ phases tr = ["Initializing..."; "Fatal Error"; "Stopped"]
    /\ incident_calls tr = []
    /\ last (statuses tr) = Some d
    /\ d !! "error" = None
    /\ d !! "monitoring_active" = Some (JBool (negb (b_signal b || b_late_signal b))).
Proof.
  intros Hm. rewrite exec_main_run, Hm. cbv zeta.
  eexists. eexists. eexists. split; [reflexivity|]. cbn [app].
  split; [|split; [reflexivity|split; [reflexivity|split]]].
  - unfold init_data, fatal_data, stop_data.
    rewrite (phases_publish _ "Initializing...")
      by (rewrite stamped_status; apply lookup_insert_eq).
    rewrite !phases_tagged by discriminate. reflexivity.
  - rewrite stamped_cpu_usage || idtac.
    unfold stamped, stop_data. rewrite !lookup_insert_ne by discriminate.
    apply lookup_empty.
  - rewrite stamped_monitoring_active. unfold entry_store.
    destruct (b_signal b), (b_late_signal b); reflexivity.
Qed.

Lemma X11_fatal_startup_witness :
  exists s tr d,
    exec_main Scenario.g0 b_fatal [Scenario.calm] = (inr true, s, tr)
    /\ phases tr = ["Initializing..."; "Fatal Error"; "Stopped"]
    /\ incident_calls tr = []
    /\ last (statuses tr) = Some d
    /\ d !! "error" = None
    /\ d !! "monitoring_active" = Some (JBool true).
Proof.
  apply (X11_fatal_startup Scenario.g0 b_fatal [Scenario.calm] "Permission denied").
  reflexivity.
Defined.

(** X12: [update_ui_data] publishes the caller's dict with the four
    bookkeeping fields written over whatever the caller gave for them
    ([monitoring_active] is the current value of [running]); every
    other key is passed through unchanged. *)
Theorem X12_update_ui_data_fields
    (g : globals) (w : world) (p : ckpt) (data : gmap string jvalue) (s : store) :
  exists d,
    update_ui_data g w p data s = (inr tt, deliver w p s, [Publish d])
    /\ d !! "last_updated" = Some (JStr (w_ctime w p))
    /\ d !! "container_name" = Some (JStr (CONTAINER_NAME g))
    /\ d !! "threshold" = Some (JInt (THRESHOLD g))
    /\ d !! "monitoring_active" = Some (JBool (running (deliver w p s)))
    /\ (forall k, ~ In k bookkeeping_keys -> d !! k = data !! k).
Proof.
  rewrite update_ui_data_run. eexists. split; [reflexivity|].
  rewrite stamped_last_updated, stamped_container_name, stamped_threshold,
    stamped_monitoring_active.
  repeat split; auto.
  intros k Hk. unfold stamped, bookkeeping_keys in *. cbn [In] in Hk.
  rewrite !lookup_insert_ne by (intros <-; apply Hk; auto 6).
  reflexivity.
Qed.

(** ** Remediation *)

Lemma prefix_app_self n b : String.prefix n (n +:+ b) = true.
Proof.
  induction n as [|c n IH]; [now destruct b|].
  change (String c n +:+ b) with (String c (n +:+ b)).
  change (String.prefix (String c n) (String c (n +:+ b)))
    with (if ascii_dec c c then String.prefix n (n +:+ b) else false).
  destruct (ascii_dec c c); [exact IH | contradiction].
Qed.

Lemma contains_unfold n h :
  PyStr.contains n h
  = String.prefix n h
    || match h with
       | String _ h' => PyStr.contains n h'
       | EmptyString => false
       end.
Proof. destruct h; reflexivity. Qed.

Lemma contains_self_app n b : PyStr.contains n (n +:+ b) = true.
Proof. rewrite contains_unfold, prefix_app_self. reflexivity. Qed.

(** X13: the existence test of [remediate] is a substring test: when
    the listing of [docker ps] contains the container name anywhere,
    also inside a longer name, no container is created and the outcome
    of the remediation is that of [docker restart] alone. *)
Theorem X13_existence_is_substring
    (g : globals) (w : world) (s : store) (before after : string) :
  w_docker_ps w = inr (before +:+ CONTAINER_NAME g +:+ after) ->
  restart_succeeds g w = w_docker_restart w
  /\ (remediate g w s).1.1 = inr (w_docker_restart w).
Proof.
  intros Hps.
  assert (Hr : restart_succeeds g w = w_docker_restart w).
  { unfold restart_succeeds. rewrite Hps.
    rewrite contains_app_r by apply contains_self_app. reflexivity. }
  split; [exact Hr|].
  unfold remediate. run. rewrite Hr.
  destruct (w_docker_restart w); reflexivity.
Qed.

Lemma X13_existence_is_substring_witness :
  let w := with_docker (inr ("my-" +:+ "test-container" +:+ "-2")) false true
             Scenario.calm in
  restart_succeeds Scenario.g0 w = true
  /\ (remediate Scenario.g0 w initial_store).1.1 = inr true.
Proof.
  cbv zeta.
  apply (X13_existence_is_substring Scenario.g0
           (with_docker (inr ("my-" +:+ "test-container" +:+ "-2")) false true
              Scenario.calm)
           initial_store "my-" "-2").
  reflexivity.
Defined.

(** ** Diagnosis *)

Lemma lower_app a b : PyStr.lower (a +:+ b) = PyStr.lower a +:+ PyStr.lower b.
Proof.
  induction a as [|c a IH]; [reflexivity|].
  change (String c a +:+ b) with (String c (a +:+ b)).
  change (PyStr.lower (String c (a +:+ b)))
    with (String (PyStr.lower_char c) (PyStr.lower (a +:+ b))).
  now rewrite IH.
Qed.

Lemma prefix_app_l n : forall a b,
  String.prefix n a = true -> String.prefix n (a +:+ b) = true.
Proof.
  induction n as [|c n IH]; intros a b H; [now destruct (a +:+ b)|].
  destruct a as [|c' a]; [discriminate H|].
  change (String c' a +:+ b) with (String c' (a +:+ b)).
  change (String.prefix (String c n) (String c' a))
    with (if ascii_dec c c' then String.prefix n a else false) in H.
  change (String.prefix (String c n) (String c' (a +:+ b)))
    with (if ascii_dec c c' then String.prefix n (a +:+ b) else false).
  destruct (ascii_dec c c'); [now apply IH | discriminate H].
Qed.

Lemma contains_app_l n a b :
  PyStr.contains n a = true -> PyStr.contains n (a +:+ b) = true.
Proof.
  induction a as [|c a IH]; intros H.
  - rewrite contains_unfold in H. rewrite orb_false_r in H.
    rewrite contains_unfold, (prefix_app_l _ _ b H). reflexivity.
  - rewrite contains_unfold in H. apply orb_true_iff in H as [H|H].
    + rewrite contains_unfold, (prefix_app_l _ _ b H). reflexivity.
    + change (String c a +:+ b) with (String c (a +:+ b)).
      rewrite contains_unfold, (IH H). apply orb_true_r.
Qed.

Lemma contains_cons n c h :
  PyStr.contains n h = true -> PyStr.contains n (String c h) = true.
Proof. intros H. rewrite contains_unfold, H. apply orb_true_r. Qed.

Lemma length_substring s : forall i n,
  (i + n <= String.length s)%nat -> String.length (String.substring i n s) = n.
Proof.
  induction s as [|c s IH]; intros i n H; cbn [String.length] in H.
  - assert (i = 0%nat /\ n = 0%nat) as [-> ->] by lia. reflexivity.
  - destruct i as [|i].
    + destruct n as [|n]; [reflexivity|].
      cbn [String.substring String.length]. rewrite IH by lia. reflexivity.
    + cbn [String.substring]. apply IH. lia.
Qed.

(** X14: without a usable API key (unset, or set to the empty string)
    the diagnosis does not depend on the language model: it is one of
    the four causes of the keyword classifier, or, when the log file
    cannot be read, "Log analysis failed: " with the error. *)
Theorem X14_diagnosis_without_key (g : globals) (w : world) :
  PyStr.truthy (API_KEY g) = false ->
  (exists e, w_log_file w = LogError e
             /\ diagnosed_cause g w = "Log analysis failed: " +:+ e)
  \/ In (diagnosed_cause g w) canned_causes.
Proof.
  intros Hk. unfold diagnosed_cause, analysis. rewrite Hk.
  assert (Hc : forall logs, In (classify logs) canned_causes).
  { intros logs. unfold classify, canned_causes.
    destruct (PyStr.contains "worker processes" _); [cbn; auto|].
    destruct (PyStr.contains "memory pressure" _); [cbn; auto|].
    destruct (PyStr.contains "network connections" _); cbn; auto 6. }
  destruct (w_log_file w) as [e| |logs].
  - left. now exists e.
  - right. apply Hc.
  - right. apply Hc.
Qed.

Lemma X14_diagnosis_without_key_witness :
  In (diagnosed_cause g_blank_key Scenario.calm) canned_causes.
Proof.
  destruct (X14_diagnosis_without_key g_blank_key Scenario.calm eq_refl)
    as [(e & He & _)|H].
  - discriminate He.
  - exact H.
Defined.

(** X15: on a first run, when the log file does not exist yet and is
    written with the sample lines, the keyword classifier always names
    the worker processes, whatever the time stamps and the container
    name, as long as the sample fits into the 3000 characters kept. *)
Theorem X15_sample_log_diagnosis (g : globals) (w : world) :
  PyStr.truthy (API_KEY g) = false ->
  w_log_file w = LogMissing ->
  (String.length (PyStr.join_lines (sample_logs g w)) <= 3000)%nat ->
  diagnosed_cause g w = "Multiple worker processes causing CPU overload".
Proof.
  intros Hk Hlog Hlen. unfold diagnosed_cause, analysis. rewrite Hlog, Hk.
  apply Nat.ltb_ge in Hlen. rewrite Hlen.
  unfold classify.
  assert (Hc : PyStr.contains "worker processes"
                 (PyStr.lower (PyStr.join_lines (sample_logs g w))) = true).
  { unfold sample_logs. cbn [PyStr.join_lines].
    rewrite !lower_app.
    do 4 (apply contains_app_r;
          change (PyStr.lower (String "010"%char ?s))
            with (String "010"%char (PyStr.lower s));
          apply contains_cons; rewrite ?lower_app).
    apply contains_app_l. apply contains_app_r.
    vm_compute. reflexivity. }
  now rewrite Hc.
Qed.

Lemma X15_sample_log_diagnosis_witness :
  diagnosed_cause Scenario.g0 Scenario.calm
  = "Multiple worker processes causing CPU overload".
Proof.
  apply X15_sample_log_diagnosis.
  - reflexivity.
  - reflexivity.
  - apply Nat.leb_le. vm_compute. reflexivity.
Defined.

(** X16: only the last 3000 characters of the log file are analysed:
    a longer log gives the same analysis as its last 3000 characters
    alone, so a keyword that occurs only before them is not seen. *)
Theorem X16_only_log_tail_matters (g : globals) (w : world) (logs : string) :
  (3000 < String.length logs)%nat ->
  analysis g (with_log_file (LogText logs) w)
  = analysis g (with_log_file (LogText (PyStr.last_chars 3000 logs)) w).
Proof.
  intros Hlen. unfold analysis. cbn [w_log_file w_openai with_log_file].
  assert (Htail : String.length (PyStr.last_chars 3000 logs) = 3000%nat)
    by (unfold PyStr.last_chars; apply length_substring; lia).
  rewrite Htail. apply Nat.ltb_lt in Hlen. rewrite Hlen.
  rewrite Nat.ltb_irrefl. reflexivity.
Qed.

Lemma X16_only_log_tail_matters_witness :
  analysis Scenario.g0 (with_log_file (LogText long_log) Scenario.calm)
  = analysis Scenario.g0
      (with_log_file (LogText (PyStr.last_chars 3000 long_log)) Scenario.calm)
  /\ analysis Scenario.g0 (with_log_file (LogText long_log) Scenario.calm)
     = inr "Memory pressure leading to excessive swapping".
Proof.
  split.
  - apply X16_only_log_tail_matters. apply Nat.ltb_lt. vm_compute. reflexivity.
  - vm_compute. reflexivity.
Defined.

(** ** Notification *)


(** ** Notification *)

Lemma append_assoc a b c : (a +:+ b) +:+ c = a +:+ (b +:+ c).
Proof.
  induction a as [|x a IH]; [reflexivity|].
  change ((String x a +:+ b) +:+ c) with (String x ((a +:+ b) +:+ c)).
  now rewrite IH.
Qed.

Lemma contains_field label x rest :
  PyStr.contains (label +:+ x +:+ nl) (label +:+ x +:+ nl +:+ rest) = true.
Proof.
  replace (label +:+ x +:+ nl +:+ rest) with ((label +:+ x +:+ nl) +:+ rest)
    by (now rewrite !append_assoc).
  apply contains_self_app.
Qed.

(** X17: the text [notify] builds names the cause, the action and the
    container it was given, and always reports "*Status:* Resolved",
    also when the action is the one of a failed remediation; a request
    is sent exactly when a non-empty webhook is configured. *)
Theorem X17_notification_text (g : globals) (stamp cause action : string) :
  PyStr.contains ("*Root Cause:* " +:+ cause +:+ nl)
    (notify_text g stamp cause action) = true
  /\ PyStr.contains ("*Action Taken:* " +:+ action +:+ nl)
       (notify_text g stamp cause action) = true
  /\ PyStr.contains ("*Container:* " +:+ CONTAINER_NAME g +:+ nl)
       (notify_text g stamp cause action) = true
  /\ PyStr.contains "*Status:* Resolved" (notify_text g stamp cause action) = true
  /\ (PyStr.truthy (SLACK_WEBHOOK_URL g) = false <->
      slack_request g stamp cause action = None).
Proof.
  unfold notify_text. split; [|split; [|split; [|split]]].
  - do 4 apply contains_app_r. apply contains_field.
  - do 7 apply contains_app_r. apply contains_field.
  - do 12 apply contains_app_r. apply contains_field.
  - do 10 apply contains_app_r. apply contains_self_app.
  - unfold slack_request.
    destruct (SLACK_WEBHOOK_URL g) as [[|c url]|]; cbn [PyStr.truthy];
      split; intros H; try reflexivity; discriminate H.
Qed.

(** ** The incident table *)

Lemma max_id_upper l r : In r l -> (i_id r <= max_id l)%Z.
Proof.
  induction l as [|x l IH]; intros H; [destruct H|].
  cbn [max_id foldr]. fold (max_id l). destruct H as [->|H]; [lia|].
  specialize (IH H). lia.
Qed.

Lemma next_id_fresh t r : In r (rows t) -> (i_id r < next_id t)%Z.
Proof. intros H. apply max_id_upper in H. unfold next_id. lia. Qed.

Lemma rows_create_table db : rows (create_table db) = rows_of db.
Proof. now destruct db. Qed.

(** X18: [log_incident] never changes or removes a row that is already
    in the table, whether it succeeds or fails at any point: afterwards
    the table holds the old rows followed by at most one new row, and
    the id of a new row is larger than every id in the table before. *)
Theorem X18_incident_table_append_only
    (g : globals) (stamp cause action : string) (cpu_usage : Q)
    (fault : option db_fault) (db : option table) :
  let db' := (log_incident_db g stamp cause action cpu_usage fault db).1 in
  rows_of db' = rows_of db
  \/ exists r,
       rows_of db' = rows_of db ++ [r]
       /\ i_cause r = Some cause
       /\ i_action r = Some action
       /\ i_cpu_usage r = Some cpu_usage
       /\ i_container_name r = Some (CONTAINER_NAME g)
       /\ i_timestamp r = Some stamp
       /\ Forall (fun old => (i_id old < i_id r)%Z) (rows_of db).
Proof.
  cbv zeta.
  assert (Hnew : forall t,
             exists r,
               rows (insert_incident g stamp cause action cpu_usage t) = rows t ++ [r]
               /\ i_cause r = Some cause
               /\ i_action r = Some action
               /\ i_cpu_usage r = Some cpu_usage
               /\ i_container_name r = Some (CONTAINER_NAME g)
               /\ i_timestamp r = Some stamp
               /\ Forall (fun old => (i_id old < i_id r)%Z) (rows t)).
  { intros t. eexists. split; [reflexivity|]. cbn.
    repeat split; auto. apply List.Forall_forall. intros old Hold.
    now apply next_id_fresh. }
  destruct fault as [[| |]|]; cbn [log_incident_db fst rows_of].
  - now left.
  - left. apply rows_create_table.
  - right. destruct (Hnew (create_table db)) as (r & Hr & H).
    exists r. now rewrite Hr, rows_create_table in *.
  - right. destruct (Hnew (create_table db)) as (r & Hr & H).
    exists r. now rewrite Hr, rows_create_table in *.
Qed.

Lemma order_by_newest l r :
  Forall (fun old => (i_id old < i_id r)%Z) l ->
  order_by_id_desc (l ++ [r]) = r :: order_by_id_desc l.
Proof.
  intros H. unfold order_by_id_desc. rewrite foldr_app. cbn [foldr insert_desc].
  induction H as [|x l Hx _ IH]; [reflexivity|].
  cbn [foldr]. rewrite IH. cbn [insert_desc].
  destruct (i_id r <=? i_id x)%Z eqn:E; [apply Z.leb_le in E; lia | reflexivity].
Qed.

(** X19: an incident that [log_incident] has stored is the first one
    the dashboard's [load_incidents] returns, with the cause, action,
    value, container name and time stamp that were logged, followed by
    the nine newest of the incidents listed before; the total printed
    is one more than the rows the table had. *)
Theorem X19_logged_incident_is_listed_first
    (g : globals) (stamp cause action : string) (cpu_usage : Q)
    (db : option table) :
  exists db' id,
    log_incident_db g stamp cause action cpu_usage None db
    = (Some db', Some (S (length (rows_of db))))
    /\ Forall (fun old => (i_id old < id)%Z) (rows_of db)
    /\ load_incidents false (Some db')
       = {| l_id := id; l_cause := Some cause; l_action := Some action;
            l_cpu_usage := cpu_usage; l_container_name := CONTAINER_NAME g;
            l_timestamp := Some stamp |}
         :: firstn 9 (load_incidents false db).
Proof.
  replace (load_incidents false db)
    with (load_incidents false (Some (create_table db)))
    by (now destruct db).
  eexists. exists (next_id (create_table db)). split; [|split].
  - cbn [log_incident_db]. cbv zeta. f_equal. f_equal.
    cbn [insert_incident rows]. rewrite length_app, rows_create_table.
    cbn [length]. lia.
  - rewrite <- rows_create_table. apply List.Forall_forall.
    intros old. apply next_id_fresh.
  - cbn [load_incidents insert_incident rows].
    rewrite order_by_newest
      by (apply List.Forall_forall; intros old; apply next_id_fresh).
    cbn [firstn map]. f_equal.
    rewrite <- firstn_map, <- (firstn_map _ 10), firstn_firstn. reflexivity.
Qed.

Lemma Forall_insert_desc (P : incident -> Prop) r l :
  P r -> Forall P l -> Forall P (insert_desc r l).
Proof.
  intros Hr Hl. induction Hl as [|x l Hx Hl IH]; cbn [insert_desc].
  - now constructor.
  - destruct (i_id x <=? i_id r)%Z; repeat constructor; auto.
Qed.

Lemma Forall_order_by_id_desc (P : incident -> Prop) l :
  Forall P l -> Forall P (order_by_id_desc l).
Proof.
  induction 1 as [|x l Hx _ IH]; [constructor|].
  unfold order_by_id_desc. cbn [foldr]. now apply Forall_insert_desc.
Qed.

Lemma length_insert_desc r l : length (insert_desc r l) = S (length l).
Proof.
  induction l as [|x l IH]; [reflexivity|]. cbn [insert_desc].
  destruct (i_id x <=? i_id r)%Z; cbn [length]; now rewrite ?IH.
Qed.

Lemma length_order_by_id_desc l : length (order_by_id_desc l) = length l.
Proof.
  induction l as [|x l IH]; [reflexivity|].
  unfold order_by_id_desc in *. cbn [foldr].
  now rewrite length_insert_desc, IH.
Qed.

Lemma descending_insert_desc r l :
  ~ In (i_id r) (map i_id l) ->
  descending (map i_id l) -> descending (map i_id (insert_desc r l)).
Proof.
  induction l as [|x l IH]; intros Hnew Hd; [cbn; auto|].
  cbn [map descending] in Hd. destruct Hd as [Hx Hd]. cbn [insert_desc].
  assert (Hne : i_id x <> i_id r) by (intros E; apply Hnew; now left).
  destruct (i_id x <=? i_id r)%Z eqn:E.
  - apply Z.leb_le in E. cbn [map descending]. repeat split; auto.
    constructor; [lia|].
    eapply List.Forall_impl; [|exact Hx]. cbn. intros y Hy. lia.
  - apply Z.leb_gt in E. cbn [map descending]. split.
    + apply (proj2 (List.Forall_map i_id (fun y => (y < i_id x)%Z) _)).
      apply Forall_insert_desc; [exact E|].
      exact (proj1 (List.Forall_map i_id (fun y => (y < i_id x)%Z) l) Hx).
    + apply IH; [|exact Hd]. intros Hin. apply Hnew. now right.
Qed.

Lemma in_insert_desc x r l : In x (insert_desc r l) -> x = r \/ In x l.
Proof.
  induction l as [|y l IH]; cbn [insert_desc].
  - intros [->|[]]. now left.
  - destruct (i_id y <=? i_id r)%Z.
    + intros [->|H]; auto.
    + intros [->|H]; [right; now left|].
      destruct (IH H) as [->|H']; auto. right. now right.
Qed.

Lemma in_order_by_id_desc x l : In x (order_by_id_desc l) -> In x l.
Proof.
  induction l as [|y l IH]; [auto|].
  unfold order_by_id_desc in *. cbn [foldr]. intros H.
  apply in_insert_desc in H as [->|H]; [now left | right; auto].
Qed.

Lemma descending_order_by_id_desc l :
  NoDup (map i_id l) -> descending (map i_id (order_by_id_desc l)).
Proof.
  induction l as [|x l IH]; intros Hnd; [exact I|].
  cbn [map] in Hnd. apply NoDup_cons in Hnd as [Hx Hnd].
  unfold order_by_id_desc in *. cbn [foldr].
  apply descending_insert_desc; [|now apply IH].
  intros Hin. apply Hx. apply list_elem_of_In.
  apply in_map_iff in Hin as (y & Hy & Hin).
  apply in_order_by_id_desc in Hin. rewrite <- Hy. now apply in_map.
Qed.

Lemma descending_firstn n : forall ids,
  descending ids -> descending (firstn n ids).
Proof.
  induction n as [|n IH]; intros [|x ids] Hd; cbn [firstn]; try exact I.
  destruct Hd as [Hx Hd]. split; [|now apply IH].
  now apply Forall_take.
Qed.

(** X20: the dashboard lists at most ten incidents, each a row of the
    table, and all of them when the table has ten rows or fewer; with
    the ids distinct, as a primary key is, they come in strictly
    decreasing order of id.  A missing database or a failing query
    gives the empty list. *)
Theorem X20_dashboard_lists_newest_ten (fault : bool) (db : option table) :
  NoDup (map i_id (rows_of db)) ->
  (length (load_incidents fault db) <= 10)%nat
  /\ descending (map l_id (load_incidents fault db))
  /\ Forall (fun x => exists r, In r (rows_of db) /\ x = select_columns r)
       (load_incidents fault db)
  /\ (fault = false -> (length (rows_of db) <= 10)%nat ->
      length (load_incidents fault db) = length (rows_of db))
  /\ load_incidents true db = []
  /\ load_incidents fault None = [].
Proof.
  intros Hnd.
  destruct db as [t|]; cbn [load_incidents rows_of] in *;
    [|repeat split; cbn; auto; lia].
  destruct fault; [repeat split; cbn; auto; try lia; discriminate|].
  split; [|split; [|split; [|split; [|split]]]]; try reflexivity.
  - rewrite length_map, length_firstn. lia.
  - rewrite map_map. cbn [select_columns l_id].
    change (fun x => i_id x) with i_id. rewrite <- firstn_map.
    apply descending_firstn, descending_order_by_id_desc, Hnd.
  - apply List.Forall_map. apply Forall_take, Forall_order_by_id_desc.
    apply List.Forall_forall. intros r Hr. now exists r.
  - intros _ Hlen.
    rewrite length_map, length_firstn, length_order_by_id_desc. lia.
Qed.

Lemma X20_dashboard_lists_newest_ten_witness :
  NoDup (map i_id (rows_of two_incidents))
  /\ map l_id (load_incidents false two_incidents) = [2; 1]
  /\ descending (map l_id (load_incidents false two_incidents)).
Proof.
  assert (Hnd : NoDup (map i_id (rows_of two_incidents))).
  { change (NoDup [1; 2]). apply NoDup_cons_2; [|apply NoDup_singleton].
    intros H. apply list_elem_of_In in H. destruct H as [H|[]]. discriminate H. }
  split; [exact Hnd|]. split; [reflexivity|].
  exact (proj1 (proj2 (X20_dashboard_lists_newest_ten false two_incidents Hnd))).
Defined.


Lemma max_id_bound l n :
  (0 <= n)%Z -> Forall (fun r => (i_id r <= n)%Z) l -> (max_id l <= n)%Z.
Proof.
  intros Hn. induction 1 as [|x l Hx _ IH]; cbn [max_id foldr]; [exact Hn|].
  fold (max_id l). lia.
Qed.

Lemma agent_built_next_id t :
  agent_built (Some t) -> next_id t = Z.of_nat (S (length (rows t))).
Proof.
  intros [Hids Hseq]. unfold next_id. rewrite Hseq.
  assert (Hmax : (max_id (rows t) <= Z.of_nat (length (rows t)))%Z).
  { apply max_id_bound; [lia|].
    apply (proj1 (List.Forall_map i_id (fun y => (y <= _)%Z) (rows t))).
    rewrite Hids. apply List.Forall_map. apply List.Forall_forall.
    intros k Hk. apply in_seq in Hk. lia. }
  lia.
Qed.

Lemma agent_built_insert g stamp cause action cpu t :
  agent_built (Some t) ->
  agent_built (Some (insert_incident g stamp cause action cpu t)).
Proof.
  intros Hb. pose proof (agent_built_next_id _ Hb) as Hn.
  destruct Hb as [Hids Hseq].
  cbn [agent_built insert_incident rows sequence].
  rewrite length_app, Nat.add_1_r, seq_S, !map_app, Hids, Hn.
  cbn [map length]. split; [|reflexivity].
  f_equal.
Qed.

Lemma agent_built_create db : agent_built db -> agent_built (Some (create_table db)).
Proof. destruct db; [auto|]. intros _. split; reflexivity. Qed.

Lemma agent_built_rows db :
  agent_built db ->
  map i_id (rows_of db) = map Z.of_nat (seq 1 (length (rows_of db))).
Proof. destruct db as [t|]; [now intros [H _] | reflexivity]. Qed.

Lemma committed_cons x calls :
  length (committed (x :: calls))
  = (length (committed [x]) + length (committed calls))%nat.
Proof.
  change (x :: calls) with ([x] ++ calls).
  unfold committed. now rewrite List.filter_app, length_app.
Qed.

Lemma log_all_agent_built g calls : forall db,
  agent_built db ->
  agent_built (log_all g calls db)
  /\ length (rows_of (log_all g calls db))
     = (length (rows_of db) + length (committed calls))%nat.
Proof.
  induction calls as [|[[[[stamp cause] action] cpu] fault] calls IH];
    intros db Hb.
  - cbn. split; [exact Hb | lia].
  - unfold log_all in *. cbn [foldl].
    set (db1 := (log_incident_db g stamp cause action cpu fault db).1).
    assert (H1 : agent_built db1
                 /\ length (rows_of db1)
                    = (length (rows_of db)
                       + length (committed [(stamp, cause, action, cpu, fault)]))%nat).
    { unfold db1.
      destruct fault as [[| |]|]; cbn [log_incident_db fst committed List.filter snd length rows_of].
      - split; [exact Hb | lia].
      - split; [now apply agent_built_create|].
        rewrite rows_create_table. lia.
      - split; [now apply agent_built_insert, agent_built_create|].
        cbn [insert_incident rows]. rewrite length_app, rows_create_table.
        cbn [length]. lia.
      - split; [now apply agent_built_insert, agent_built_create|].
        cbn [insert_incident rows]. rewrite length_app, rows_create_table.
        cbn [length]. lia. }
    destruct H1 as [Hb1 Hl1]. destruct (IH db1 Hb1) as [Hb2 Hl2].
    split; [exact Hb2|]. rewrite Hl2, Hl1.
    rewrite (committed_cons (stamp, cause, action, cpu, fault) calls). rewrite <- Nat.add_assoc. reflexivity.
Qed.

(** X21: in a database that only the agent has written, starting from
    none, the incident ids are 1, 2, 3, ... in the order of the calls
    that reached their commit: a [log_incident] call that fails before
    the commit leaves no row and no gap in the numbering. *)
Theorem X21_incident_ids_are_consecutive (g : globals) (calls : list log_call) :
  map i_id (rows_of (log_all g calls None))
  = map Z.of_nat (seq 1 (length (committed calls))).
Proof.
  destruct (log_all_agent_built g calls None I) as [Hb Hl].
  rewrite (agent_built_rows _ Hb), Hl. reflexivity.
Qed.

Lemma committed_unfaulted calls :
  Forall (fun c : log_call => c.2 = None) calls -> committed calls = calls.
Proof.
  induction 1 as [|c calls Hc _ IH]; [reflexivity|].
  unfold committed in *. cbn [List.filter]. now rewrite Hc, IH.
Qed.

Lemma log_all_content g calls : forall db,
  Forall (fun c : log_call => c.2 = None) calls ->
  map content (rows_of (log_all g calls db))
  = map content (rows_of db) ++ map call_content calls.
Proof.
  induction calls as [|[[[[stamp cause] action] cpu] fault] calls IH];
    intros db Hf.
  - cbn. now rewrite app_nil_r.
  - apply List.Forall_cons_iff in Hf as [Hc Hf]. cbn in Hc. subst fault.
    unfold log_all in *. cbn [foldl]. rewrite (IH _ Hf).
    cbn [log_incident_db fst rows_of insert_incident rows].
    rewrite map_app, rows_create_table, <- app_assoc. reflexivity.
Qed.

Lemma record_calls_unfaulted stamps tr :
  Forall (fun c : log_call => c.2 = None) (record_calls stamps tr).
Proof.
  unfold record_calls. generalize (records tr). intros l. revert stamps.
  induction l as [|[[c a] v] l IH]; intros stamps; [constructor|].
  cbn [imap]. constructor; [reflexivity | apply IH].
Qed.

Lemma record_calls_content stamps tr :
  map call_content (record_calls stamps tr) = map record_content (records tr).
Proof.
  unfold record_calls. generalize (records tr). intros l. revert stamps.
  induction l as [|[[c a] v] l IH]; intros stamps; [reflexivity|].
  cbn [imap map]. f_equal. apply (IH (fun n => stamps (S n))).
Qed.

Lemma length_record_calls stamps tr :
  length (record_calls stamps tr) = length (records tr).
Proof. unfold record_calls. apply length_imap. Qed.

(** X22: when the incident calls of a run are stored, without faults,
    in a database that did not exist, the table ends up with one row
    per handling sequence started, numbered 1, 2, ... in the order of
    the sequences, each with the cause, action and sampled value of its
    sequence. *)
Theorem X22_table_after_run
    (g : globals) (b : boot) (ws : list world) (stamps : nat -> string) :
  let tr := (exec_main g b ws).2 in
  let db := log_all g (record_calls stamps tr) None in
  map content (rows_of db) = map record_content (records tr)
  /\ map i_id (rows_of db) = map Z.of_nat (seq 1 (length (trigger_times tr))).
Proof.
  cbv zeta. split.
  - rewrite log_all_content by apply record_calls_unfaulted.
    apply record_calls_content.
  - destruct (log_all_agent_built g
                (record_calls stamps (exec_main g b ws).2) None I) as [Hb Hl].
    rewrite (agent_built_rows _ Hb), Hl.
    rewrite committed_unfaulted by apply record_calls_unfaulted.
    rewrite length_record_calls.
    now rewrite (proj2 (exec_main_balanced g b ws)).
Qed.

(** ** Sampling, continued *)

Lemma query_loop_first w pre q post f rows v :
  (forall q' f' rows', In q' pre ->
     w_prom w q' = PromRows (Some f' :: rows') -> sane f' = None) ->
  w_prom w q = PromRows (Some f :: rows) ->
  sane f = Some v ->
  query_loop w (pre ++ q :: post) = Some v.
Proof.
  intros Hpre Hq Hs. induction pre as [|p pre IH]; cbn [app query_loop].
  - now rewrite Hq, Hs.
  - assert (Hrest : query_loop w (pre ++ q :: post) = Some v)
      by (apply IH; intros q' f' rows' Hin; apply Hpre; now right).
    destruct (w_prom w p) as [|[|[f'|] rows']] eqn:Hp; auto.
    now rewrite (Hpre p f' rows' (or_introl eq_refl) Hp).
Qed.

(** X23: with Prometheus up, the value is the one of the first CPU
    query, in the order of the list, whose first row passes the sanity
    check: the queries before it are skipped when they raise, are
    empty, unreadable or out of range, and neither the later queries
    nor the simulation are consulted. *)
Theorem X23_first_usable_query_wins
    (g : globals) (w : world) (pre post : list string) (q : string)
    (f : pyfloat) (rows : list (option pyfloat)) (v : Q) :
  prom g = true ->
  queries = pre ++ q :: post ->
  (forall q' f' rows', In q' pre ->
     w_prom w q' = PromRows (Some f' :: rows') -> sane f' = None) ->
  w_prom w q = PromRows (Some f :: rows) ->
  sane f = Some v ->
  get_cpu_usage g w = inr v /\ f = Finite v /\ (0 <= v <= 100)%Q.
Proof.
  intros Hp Hqs Hpre Hq Hs.
  destruct (sane_range _ _ Hs) as [Hf Hr].
  split; [|split; [exact Hf | exact Hr]].
  unfold get_cpu_usage, prometheus_value.
  now rewrite Hp, Hqs, (query_loop_first _ _ _ _ _ _ _ Hpre Hq Hs).
Qed.

Lemma X23_first_usable_query_wins_witness :
  get_cpu_usage Scenario.g_prom second_query_usable = inr 42%Q.
Proof.
  refine (proj1 (X23_first_usable_query_wins Scenario.g_prom second_query_usable
                   [nth 0 queries ""] [nth 2 queries ""] (nth 1 queries "")
                   (Finite 42) [] 42%Q eq_refl eq_refl _ _ eq_refl)).
  - intros q' f' rows' [<-|[]]. intros [= <-]. reflexivity.
  - reflexivity.
Defined.
